(** * GroundUp toolkit: the WhatsApp watchdog and health-check scripts

    A shallow embedding of the three monitoring scripts of the toolkit,

    - [scripts/whatsapp-watchdog.sh]   (module [Watchdog]),
    - [scripts/whatsapp-healthcheck.sh] (module [Healthcheck]),
    - the toolkit-wide [health-check.sh] (module [ToolkitHealth]),

    and the properties of their probe / recover / escalate sequences;
    besides, the time window of [run-scheduler.sh] (module [Scheduler])
    and the .env line parser and per-job exports of [load-env.sh] (module
    [LoadEnv]).

    A script is a computation over a [world]: the state file
    [/tmp/whatsapp-watchdog-state], the number of probe commands issued so
    far, and the chronological trace of everything the script did to the
    outside (lines echoed, external commands started, files written).  The
    answers of external commands are inputs: an oracle indexed by the call
    number.  A computation finishes normally, leaves the enclosing shell
    function with [return], or ends the process with [exit].

    The trace records the external commands a script runs, text filters
    ([grep], [sed], [awk], ...) apart, and the lines the script echoes
    itself; output that a command prints straight to the log is not
    recorded.  Writes to the state file succeed. *)

From Stdlib Require Import ZArith List String Ascii Bool Lia.
From Stdlib Require Import DecimalString.
Import ListNotations.

Local Open Scope string_scope.
Local Open Scope Z_scope.

(** ** Shell values *)

(** What an external command hands back: its exit status and the text it
    printed (stdout and stderr together, as under [2>&1]). *)
Record cmd_result : Type := mk_result { rc : Z; out : string }.

(** [[ -z "$v" ]] *)
Definition is_empty (v : string) : bool :=
  match v with
  | EmptyString => true
  | String _ _ => false
  end.

(** ["${v:-d}"]: the default [d] when [v] is unset or empty. *)
Definition or_default (v d : string) : string :=
  if is_empty v then d else v.

(** Decimal rendering of an integer, as [$(( ... ))] and [${var}] print it. *)
Definition show_Z (z : Z) : string := NilZero.string_of_int (Z.to_int z).

(** Shell arithmetic is done on 64-bit signed integers. *)
Definition wrap64 (z : Z) : Z := (z + 2 ^ 63) mod 2 ^ 64 - 2 ^ 63.

(** [$(( a - b ))] *)
Definition sub64 (a b : Z) : Z := wrap64 (a - b).

(** [$( ... )] drops the newlines that end the captured text. *)
Definition newline : ascii := ascii_of_nat 10.

Fixpoint capture (raw : string) : string :=
  match raw with
  | EmptyString => EmptyString
  | String c rest =>
      let rest' := capture rest in
      if Ascii.eqb c newline && is_empty rest' then EmptyString
      else String c rest'
  end.

(** [grep -q pat] on a text, for a pattern without regular-expression
    operators and without a newline: some line has [pat] as a substring,
    that is, the text has. *)
Fixpoint contains (pat s : string) : bool :=
  if String.prefix pat s then true
  else match s with
       | EmptyString => false
       | String _ s' => contains pat s'
       end.

(** ** The world and its trace *)

Inductive event : Type :=
  | Stdout (line : string)            (* a line echoed to standard output *)
  | MessageSend (target : string)     (* openclaw message send --channel whatsapp *)
  | ChannelsStatus                    (* openclaw channels status *)
  | ChannelsStatusProbe               (* openclaw channels status --probe *)
  | OpenclawHealth                    (* openclaw health *)
  | OpenclawStatus                    (* openclaw status *)
  | IsActive                          (* systemctl --user is-active openclaw-gateway *)
  | ServiceRestart                    (* systemctl --user restart openclaw-gateway *)
  | CamofoxHealth                     (* curl -s http://localhost:9377/health *)
  | CamofoxStart                      (* nohup node server.js & *)
  | Df | Free | Du (path : string)
  | Pkill                             (* pkill -f openclaw-gateway *)
  | Pgrep                             (* pgrep -f openclaw-gateway *)
  | Sleep (seconds : Z)
  | GatewayStart                      (* nohup openclaw gateway & *)
  | GatewayRestart                    (* openclaw gateway restart *)
  | Escalate                          (* entry into send_alert *)
  | NetrcWrite                        (* mktemp, chmod 600, printf > netrc *)
  | NetrcRemove                       (* rm -f netrc *)
  | TwilioCall (account to from : string)   (* curl POST .../Calls.json *)
  | GmailSend (to subject body account : string) (* gog gmail send *)
  | WriteState (v : Z).               (* echo v > $STATE_FILE *)

(** The state file holds the decimal numeral the watchdog last wrote;
    [None] stands for a file that [cat] cannot read (missing or
    unreadable). *)
Record world : Type := mk_world {
  state_file : option Z;
  probes     : nat;          (* probe commands issued so far *)
  FAILURES   : Z;            (* the two counters of health-check.sh *)
  WARNINGS   : Z;
  trace      : list event
}.

Definition boot (file : option Z) : world :=
  {| state_file := file; probes := 0%nat;
     FAILURES := 0; WARNINGS := 0; trace := [] |}.

Definition with_trace (t : list event) (w : world) : world :=
  {| state_file := state_file w; probes := probes w;
     FAILURES := FAILURES w; WARNINGS := WARNINGS w; trace := t |}.

(** ** Shell computations *)

Inductive outcome (A : Type) : Type :=
  | Done (a : A)              (* fell through to the next command *)
  | Return (status : Z)       (* return, inside a function *)
  | Exit (status : Z).        (* exit *)
Arguments Done {A} a.
Arguments Return {A} status.
Arguments Exit {A} status.

Definition sh (A : Type) : Type := world -> outcome A * world.

Definition ret {A} (a : A) : sh A := fun w => (Done a, w).

Definition bind {A B} (m : sh A) (k : A -> sh B) : sh B :=
  fun w =>
    match m w with
    | (Done a, w') => k a w'
    | (Return st, w') => (Return st, w')
    | (Exit st, w') => (Exit st, w')
    end.

Declare Scope sh_scope.
Delimit Scope sh_scope with sh.
Notation "x <- m ;; k" := (bind m (fun x => k))
  (at level 61, m at next level, right associativity) : sh_scope.
Notation "m ;; k" := (bind m (fun _ => k))
  (at level 61, right associativity) : sh_scope.
Local Open Scope sh_scope.

Definition return_ {A} (st : Z) : sh A := fun w => (Return st, w).
Definition exit {A} (st : Z) : sh A := fun w => (Exit st, w).

(** Calling a shell function: [return n] ends the function with status
    [n]; a body that runs off its end has the status of its last command,
    which in these scripts is always an [echo], hence 0.  [exit] still
    ends the whole process. *)
Definition call (body : sh unit) : sh Z :=
  fun w =>
    match body w with
    | (Done _, w') => (Done 0, w')
    | (Return st, w') => (Done st, w')
    | (Exit st, w') => (Exit st, w')
    end.

(** Running a script as a process: the exit status and the final world.  A
    script that runs off its end has the status of its last command (an
    [echo] in [health-check.sh], the only script that does). *)
Definition run (script : sh unit) (w : world) : Z * world :=
  match script w with
  | (Done _, w') => (0, w')
  | (Return st, w') => (st, w')
  | (Exit st, w') => (st, w')
  end.

Definition emit (e : event) : sh unit :=
  fun w => (Done tt, with_trace (trace w ++ [e]) w).

Definition echo (line : string) : sh unit := emit (Stdout line).

(** [cat "$STATE_FILE" 2>/dev/null || echo "0"] *)
Definition read_state : sh Z :=
  fun w => (Done (match state_file w with
                  | Some v => v
                  | None => 0
                  end), w).

(** [echo v > "$STATE_FILE"] *)
Definition write_state (v : Z) : sh unit :=
  fun w => (Done tt, {| state_file := Some v;
                        probes := probes w;
                        FAILURES := FAILURES w;
                        WARNINGS := WARNINGS w;
                        trace := trace w ++ [WriteState v] |}).

(** One more probe command: the oracle [answers] says what the [k]-th
    invocation (counting from 0) of the command yields. *)
Definition probe_cmd (e : event) (answers : nat -> cmd_result) : sh cmd_result :=
  fun w => (Done (answers (probes w)),
            {| state_file := state_file w;
               probes := S (probes w);
               FAILURES := FAILURES w;
               WARNINGS := WARNINGS w;
               trace := trace w ++ [e] |}).

(** ** Reading a trace *)

Definition is_probe (e : event) : bool :=
  match e with
  | MessageSend _ | ChannelsStatus => true
  | _ => false
  end.

Definition is_recovery (e : event) : bool :=
  match e with
  | GatewayStart | GatewayRestart => true
  | _ => false
  end.

Definition is_escalation (e : event) : bool :=
  match e with
  | Escalate => true
  | _ => false
  end.

Definition is_call (e : event) : bool :=
  match e with
  | TwilioCall _ _ _ => true
  | _ => false
  end.

Definition is_email (e : event) : bool :=
  match e with
  | GmailSend _ _ _ _ => true
  | _ => false
  end.

Definition is_alert (e : event) : bool := is_call e || is_email e.

Definition count (p : event -> bool) (t : list event) : nat :=
  List.length (List.filter p t).

Definition logged (line : string) (t : list event) : Prop :=
  In (Stdout line) t.

(** ** The environment of a run *)

Record environ : Type := mk_environ {
  ASSISTANT_WHATSAPP_PHONE : string;
  ALERT_PHONE_var          : string;
  ALERT_EMAIL_var          : string;
  GOG_ACCOUNT_var          : string;
  TWILIO_ACCOUNT_SID       : string;
  TWILIO_API_KEY_SID       : string;
  TWILIO_API_KEY_SECRET    : string;
  TWILIO_FROM_NUMBER       : string
}.

(** ** scripts/whatsapp-watchdog.sh *)

Module Watchdog.
Section Script.

Variable env : environ.               (* after [source "$HOME/.env"] *)
Variable TIMESTAMP : string.          (* date -u +'%Y-%m-%dT%H:%M:%SZ' *)
Variable now : Z.                     (* date +%s *)
Variable message_send : nat -> cmd_result.
Variable pgrep_out : string.

Definition ASSISTANT_PHONE : string :=
  or_default (ASSISTANT_WHATSAPP_PHONE env) "+1234567890".
Definition ALERT_PHONE : string :=
  or_default (ALERT_PHONE_var env) "+1234567890".
Definition ALERT_EMAIL : string :=
  or_default (ALERT_EMAIL_var env) "admin@yourcompany.com".
Definition GOG_ACCOUNT : string :=
  or_default (GOG_ACCOUNT_var env) "assistant@yourcompany.com".
Definition LOG_PREFIX : string :=
  "[" ++ TIMESTAMP ++ "] WhatsApp Watchdog:".

Definition log (msg : string) : sh unit := echo (LOG_PREFIX ++ " " ++ msg).
Definition fail (msg : string) : sh unit :=
  echo (LOG_PREFIX ++ " FAIL: " ++ msg).

Definition cooldown : Z := 3600.

(** Lines 37-48. *)
Definition try_send : sh Z :=
  call (answer <- probe_cmd (MessageSend ASSISTANT_PHONE) message_send ;;
        let result := capture (out answer) in
        let rc := rc answer in
        if rc =? 0 then return_ 0
        else (fail ("Send failed: " ++ result) ;; return_ 1)).

(** Lines 51-58. *)
Definition restart_gateway : sh Z :=
  call (log "Restarting gateway..." ;;
        emit Pkill ;;
        emit (Sleep 3) ;;
        emit GatewayStart ;;
        emit (Sleep 8) ;;
        emit Pgrep ;;
        log ("Gateway restarted (PID: " ++ capture pgrep_out ++ ")")).

Definition twilio_unconfigured : bool :=
  is_empty (TWILIO_ACCOUNT_SID env) || is_empty (TWILIO_API_KEY_SID env)
  || is_empty (TWILIO_API_KEY_SECRET env) || is_empty (TWILIO_FROM_NUMBER env).

(** Lines 61-99.  [last_alert] is the shell global assigned once, on
    line 32, before anything else runs. *)
Definition send_alert (last_alert : Z) : sh Z :=
  call (emit Escalate ;;
        (if twilio_unconfigured then
           log "Twilio not configured, skipping call alert"
         else
           let elapsed := sub64 now last_alert in
           (if elapsed <? cooldown then
              log ("Alert cooldown active (" ++ show_Z elapsed ++ "s < "
                   ++ show_Z cooldown ++ "s), skipping") ;;
              return_ 0
            else ret tt) ;;
           log ("Calling " ++ ALERT_PHONE
                ++ " to alert about WhatsApp failure...") ;;
           emit NetrcWrite ;;
           emit (TwilioCall (TWILIO_ACCOUNT_SID env) ALERT_PHONE
                            (TWILIO_FROM_NUMBER env)) ;;
           emit NetrcRemove) ;;
        emit (GmailSend ALERT_EMAIL
                "Assistant WhatsApp is DOWN - QR scan needed"
                "WhatsApp failed the send test and could not auto-recover after gateway restart. SSH to the server and run: openclaw channels login"
                GOG_ACCOUNT) ;;
        write_state now ;;
        log "Alert sent (call + email)").

(** The whole script: line 32, then lines 103-126. *)
Definition main : sh unit :=
  last_alert <- read_state ;;
  log "Starting health check..." ;;
  st <- try_send ;;
  (if st =? 0 then
     log "OK - WhatsApp is healthy" ;;
     write_state 0 ;;
     exit 0
   else ret tt) ;;
  log "Send test failed, attempting auto-recovery..." ;;
  restart_gateway ;;
  st <- try_send ;;
  (if st =? 0 then
     log "RECOVERED - WhatsApp working after gateway restart" ;;
     write_state 0 ;;
     exit 0
   else ret tt) ;;
  fail "WhatsApp is DOWN and cannot auto-recover. Needs QR re-scan." ;;
  send_alert last_alert ;;
  exit 1.

End Script.
End Watchdog.

(** ** scripts/whatsapp-healthcheck.sh *)

Module Healthcheck.
Section Script.

Variable TIMESTAMP : string.
Variable channels_status : nat -> cmd_result.

Definition LOG_PREFIX : string := "[" ++ TIMESTAMP ++ "] WhatsApp Health:".

Definition log (msg : string) : sh unit := echo (LOG_PREFIX ++ " " ++ msg).
Definition fail (msg : string) : sh unit :=
  echo (LOG_PREFIX ++ " FAIL: " ++ msg).

(** Lines 19-29. *)
Definition check_whatsapp : sh Z :=
  call (answer <- probe_cmd ChannelsStatus channels_status ;;
        let status := capture (out answer) in
        (if contains "connected" status then
           (if contains "disconnected" status then return_ 1
            else ret tt) ;;
           return_ 0
         else ret tt) ;;
        return_ 1).

(** Lines 32-38. *)
Definition restart_gateway : sh Z :=
  call (log "Restarting gateway..." ;;
        emit GatewayRestart ;;
        emit (Sleep 15) ;;
        log "Gateway restarted, checking status...").

(** Lines 42-70. *)
Definition main : sh unit :=
  log "Starting health check..." ;;
  st <- check_whatsapp ;;
  (if st =? 0 then
     log "OK — WhatsApp is connected" ;;
     exit 0
   else ret tt) ;;
  fail "WhatsApp is disconnected, attempting auto-recovery..." ;;
  restart_gateway ;;
  st <- check_whatsapp ;;
  (if st =? 0 then
     log "RECOVERED — WhatsApp reconnected after gateway restart" ;;
     exit 0
   else ret tt) ;;
  fail "Still disconnected after first restart, trying again..." ;;
  restart_gateway ;;
  st <- check_whatsapp ;;
  (if st =? 0 then
     log "RECOVERED — WhatsApp reconnected after second restart" ;;
     exit 0
   else ret tt) ;;
  fail "WhatsApp is DOWN — could not auto-recover. May need QR re-scan (openclaw channels login)." ;;
  exit 1.

End Script.
End Healthcheck.


(** ** health-check.sh, the toolkit-wide check *)

(** Text matching for [grep -i]: ASCII letters are compared in lower case. *)
Definition lower_ascii (c : ascii) : ascii :=
  let n := nat_of_ascii c in
  if (65 <=? n)%nat && (n <=? 90)%nat then ascii_of_nat (n + 32) else c.

Fixpoint lower (s : string) : string :=
  match s with
  | EmptyString => EmptyString
  | String c rest => String (lower_ascii c) (lower rest)
  end.

(** The lines of a text. *)
Fixpoint lines_from (cur : string) (s : string) : list string :=
  match s with
  | EmptyString => if is_empty cur then [] else [cur]
  | String c rest =>
      if Ascii.eqb c newline then cur :: lines_from EmptyString rest
      else lines_from (cur ++ String c EmptyString) rest
  end.

Definition lines (s : string) : list string := lines_from EmptyString s.

Fixpoint skip (n : nat) (s : string) : string :=
  match n, s with
  | O, _ => s
  | S n', String _ rest => skip n' rest
  | S _, EmptyString => EmptyString
  end.

(** What follows the leftmost occurrence of [pat] in [s]. *)
Fixpoint after (pat s : string) : option string :=
  if String.prefix pat s then Some (skip (String.length pat) s)
  else match s with
       | EmptyString => None
       | String _ rest => after pat rest
       end.

(** A line matches [p1.*p2.*...]: the words occur in this order, without
    overlap. *)
Fixpoint in_order (pats : list string) (line : string) : bool :=
  match pats with
  | [] => true
  | p :: more =>
      match after p line with
      | Some rest => in_order more rest
      | None => false
      end
  end.

(** [grep -qi "p1.*p2.*..."], the words given in lower case. *)
Definition grep_qi (pats : list string) (text : string) : bool :=
  existsb (in_order pats) (map lower (lines text)).

(** [grep -i pat]: the lines of the text that match. *)
Definition grep_i (pat : string) (text : string) : list string :=
  filter (fun l => contains pat (lower l)) (lines text).

Definition dquote : string := String (ascii_of_nat 34) EmptyString.

Module ToolkitHealth.

(** What the outside answers during one run, in the order asked. *)
Record inputs : Type := mk_inputs {
  is_active_1     : cmd_result;   (* systemctl is-active, stdout only *)
  is_active_2     : cmd_result;   (* the same, after the restart *)
  health_output   : string;       (* openclaw health 2>&1 *)
  wa_output       : string;       (* openclaw channels status --probe 2>&1 *)
  wa_output2      : string;       (* the same, after the restart *)
  status_output   : string;       (* openclaw status 2>&1 *)
  disabled_names  : string;       (* grep -oi ... | sed ... | tr ... *)
  disk_pct        : Z;            (* df / | awk ... | sed ... *)
  mem_pct         : Z;            (* free | awk ... *)
  camofox_health  : string;       (* curl -s .../health *)
  camofox_health2 : string;       (* the same, after the start *)
  log_files       : list (string * Z)  (* the log files that exist, du -m *)
}.

Section Script.

Variable env : environ.               (* after the .env loop *)
Variable TIMESTAMP : string.
Variable inp : inputs.

Definition ALERT_EMAIL : string :=
  or_default (ALERT_EMAIL_var env) "admin@yourcompany.com".
Definition GOG_ACCOUNT : string :=
  or_default (GOG_ACCOUNT_var env) "assistant@yourcompany.com".

Definition log (msg : string) : sh unit :=
  echo ("[" ++ TIMESTAMP ++ "] " ++ msg).

Definition warn (msg : string) : sh unit :=
  echo ("[" ++ TIMESTAMP ++ "] WARN: " ++ msg) ;;
  fun w => (Done tt, {| state_file := state_file w; probes := probes w;
                        FAILURES := FAILURES w;
                        WARNINGS := wrap64 (WARNINGS w + 1);
                        trace := trace w |}).

Definition fail (msg : string) : sh unit :=
  echo ("[" ++ TIMESTAMP ++ "] FAIL: " ++ msg) ;;
  fun w => (Done tt, {| state_file := state_file w; probes := probes w;
                        FAILURES := wrap64 (FAILURES w + 1);
                        WARNINGS := WARNINGS w;
                        trace := trace w |}).

(** Lines 43-50. *)
Definition send_alert (subject body : string) : sh Z :=
  call (emit Escalate ;;
        emit (GmailSend ALERT_EMAIL subject body GOG_ACCOUNT) ;;
        log ("Alert email sent to " ++ ALERT_EMAIL)).

(** [$(systemctl --user is-active openclaw-gateway 2>/dev/null || echo "inactive")] *)
Definition gw_status (answer : cmd_result) : string :=
  capture (if rc answer =? 0 then out answer
           else out answer ++ "inactive" ++ String newline EmptyString).

(** Lines 59-74. *)
Definition gateway_process_check : sh unit :=
  log "[1/6] Gateway process check..." ;;
  emit IsActive ;;
  let GW_STATUS := gw_status (is_active_1 inp) in
  if negb (String.eqb GW_STATUS "active") then
    fail ("Gateway not running (status: " ++ GW_STATUS ++ "). Restarting...") ;;
    emit ServiceRestart ;;
    emit (Sleep 10) ;;
    emit IsActive ;;
    let GW_STATUS2 := gw_status (is_active_2 inp) in
    if String.eqb GW_STATUS2 "active" then
      log "  Gateway restarted successfully"
    else
      fail "Gateway failed to restart!" ;;
      send_alert "CRITICAL: OpenClaw Gateway Down"
        "The OpenClaw gateway failed to restart. Manual intervention needed." ;;
      ret tt
  else
    log "  Gateway is running".

(** Lines 79-87. *)
Definition gateway_rpc_probe : sh unit :=
  log "[2/6] Gateway RPC probe..." ;;
  emit OpenclawHealth ;;
  let HEALTH_OUTPUT := capture (health_output inp) in
  if grep_qi ["linked"] HEALTH_OUTPUT then
    log "  Gateway RPC healthy"
  else
    fail "Gateway RPC probe failed. Restarting..." ;;
    emit GatewayRestart ;;
    emit (Sleep 10).

Definition wa_disconnected_body : string :=
  "WhatsApp is disconnected and failed to recover after gateway restart. Manual intervention needed. Run: openclaw channels login".

(** Lines 92-119. *)
Definition whatsapp_connection_check : sh unit :=
  log "[3/6] WhatsApp connection check..." ;;
  emit ChannelsStatusProbe ;;
  let WA_OUTPUT := capture (wa_output inp) in
  if grep_qi ["linked"; "running"; "connected"] WA_OUTPUT then
    log "  WhatsApp is linked, running, and connected"
  else if grep_qi ["linked"] WA_OUTPUT then
    warn "WhatsApp linked but may not be fully connected. Restarting gateway..." ;;
    emit GatewayRestart ;;
    emit (Sleep 15) ;;
    emit ChannelsStatusProbe ;;
    let WA_OUTPUT2 := capture (wa_output2 inp) in
    if grep_qi ["linked"; "running"; "connected"] WA_OUTPUT2 then
      log "  WhatsApp recovered after restart"
    else
      fail "WhatsApp failed to reconnect after restart!" ;;
      send_alert "CRITICAL: WhatsApp Disconnected" wa_disconnected_body ;;
      ret tt
  else
    fail "WhatsApp not linked! Restarting gateway..." ;;
    emit GatewayRestart ;;
    emit (Sleep 15) ;;
    emit ChannelsStatusProbe ;;
    let WA_OUTPUT2 := capture (wa_output2 inp) in
    if grep_qi ["linked"; "running"; "connected"] WA_OUTPUT2 then
      log "  WhatsApp recovered after restart"
    else
      fail "WhatsApp failed to reconnect!" ;;
      send_alert "CRITICAL: WhatsApp Disconnected" wa_disconnected_body ;;
      ret tt.

(** Lines 124-131. *)
Definition agent_heartbeat_check : sh unit :=
  log "[4/6] Agent heartbeat check..." ;;
  emit OpenclawStatus ;;
  let HB_OUTPUT := grep_i "heartbeat" (status_output inp) in
  if existsb (fun l => contains "disabled" (lower l)) HB_OUTPUT then
    let DISABLED := capture (disabled_names inp) in
    warn ("Some agent heartbeats are disabled: " ++ DISABLED)
  else
    log "  All agent heartbeats enabled".

(** Lines 136-150. *)
Definition disk_memory_check : sh unit :=
  log "[5/6] Disk & memory check..." ;;
  emit Df ;;
  let DISK_PCT := disk_pct inp in
  (if DISK_PCT >=? 90 then
     warn ("Disk usage is at " ++ show_Z DISK_PCT ++ "%") ;;
     send_alert ("WARN: Disk usage at " ++ show_Z DISK_PCT ++ "%")
       ("Disk usage is at " ++ show_Z DISK_PCT ++ "%. Consider cleanup.") ;;
     ret tt
   else
     log ("  Disk usage: " ++ show_Z DISK_PCT ++ "%")) ;;
  emit Free ;;
  let MEM_PCT := mem_pct inp in
  if MEM_PCT >=? 90 then
    warn ("Memory usage is at " ++ show_Z MEM_PCT ++ "%")
  else
    log ("  Memory usage: " ++ show_Z MEM_PCT ++ "%").

Definition camofox_ok : string := dquote ++ "ok" ++ dquote ++ ":true".

(** Lines 156-170. *)
Definition camofox_browser_check : sh unit :=
  log "[5b/6] Camofox browser check..." ;;
  emit CamofoxHealth ;;
  let CAMOFOX_HEALTH := capture (camofox_health inp) in
  if contains camofox_ok CAMOFOX_HEALTH then
    log "  Camofox is running"
  else
    warn "Camofox not running. Starting..." ;;
    emit CamofoxStart ;;
    emit (Sleep 5) ;;
    emit CamofoxHealth ;;
    let CAMOFOX_HEALTH2 := capture (camofox_health2 inp) in
    if contains camofox_ok CAMOFOX_HEALTH2 then
      log "  Camofox started successfully"
    else
      fail "Camofox failed to start!".

(** Lines 175-182, over the log files that exist. *)
Fixpoint log_size_loop (files : list (string * Z)) : sh unit :=
  match files with
  | [] => ret tt
  | (logfile, SIZE_MB) :: rest =>
      emit (Du logfile) ;;
      (if SIZE_MB >=? 500 then
         warn ("Log file " ++ logfile ++ " is " ++ show_Z SIZE_MB
               ++ "MB - consider rotation")
       else ret tt) ;;
      log_size_loop rest
  end.

Definition log_size_check : sh unit :=
  log "[6/6] Log size check..." ;;
  log_size_loop (log_files inp) ;;
  log "  Log sizes OK".

(** Lines 188-193. *)
Definition summary : sh unit :=
  (fun w =>
     (if (FAILURES w =? 0) && (WARNINGS w =? 0) then
        log "Health check PASSED - all systems healthy"
      else
        log ("Health check COMPLETE: " ++ show_Z (FAILURES w)
             ++ " failure(s), " ++ show_Z (WARNINGS w) ++ " warning(s)")) w) ;;
  log "".

(** The whole script. *)
Definition main : sh unit :=
  log "=====================================" ;;
  log "GroundUp Toolkit Health Check Start" ;;
  log "=====================================" ;;
  gateway_process_check ;;
  gateway_rpc_probe ;;
  whatsapp_connection_check ;;
  agent_heartbeat_check ;;
  disk_memory_check ;;
  camofox_browser_check ;;
  log_size_check ;;
  summary.

End Script.
End ToolkitHealth.


(** ** Properties of a run, and sample runs *)

(** A run stayed within [p] probe commands and [r] gateway restarts. *)
Definition within (p r : nat) (w : world) : Prop :=
  (count is_probe (trace w) <= p)%nat /\ (count is_recovery (trace w) <= r)%nat.

(** Some alert went out, on either channel. *)
Definition dispatched (w : world) : Prop :=
  (1 <= count is_alert (trace w))%nat.

(** A computation that always falls through to the next command: it
    neither returns from a function nor exits the process. *)
Definition completes {A} (m : sh A) : Prop :=
  forall w, exists a w', m w = (Done a, w').

(** The probe verdict in the words of the specification: healthy when the
    command exits 0 and its output carries no "disconnected" marker. *)
Definition spec_healthy (answer : cmd_result) : bool :=
  (rc answer =? 0) && negb (contains "disconnected" (capture (out answer))).

Definition no_twilio : environ :=
  mk_environ "+15550001" "+15550002" "ops@example.com" "bot@example.com"
             "" "" "" "".

Definition with_twilio : environ :=
  mk_environ "+15550001" "+15550002" "ops@example.com" "bot@example.com"
             "AC0001" "SK0001" "s3cret" "+15550003".

Definition stamp : string := "2026-01-01T00:00:00Z".

Definition send_ok : cmd_result := mk_result 0 "".
Definition send_err : cmd_result :=
  mk_result 1 "Error: no active WhatsApp listener".

Definition always (r : cmd_result) : nat -> cmd_result := fun _ => r.

Definition first_then (r0 r : cmd_result) : nat -> cmd_result :=
  fun k => match k with O => r0 | S _ => r end.

Definition status_down : cmd_result := mk_result 0 "WhatsApp: disconnected".

(** A send that exits 0 while printing a failure marker, and a status
    command that exits 0 with a report that lacks the word "connected". *)
Definition sent_but_disconnected : cmd_result :=
  mk_result 0 "warning: session disconnected".
Definition linked_status : cmd_result := mk_result 0 "WhatsApp: linked".

(** Everything down: the service is not active before or after the
    restart and no command reports a linked channel. *)
Definition all_down : ToolkitHealth.inputs :=
  ToolkitHealth.mk_inputs
    (mk_result 3 ("failed" ++ String newline EmptyString))
    (mk_result 3 ("failed" ++ String newline EmptyString))
    "Error: gateway unreachable" "Error: gateway unreachable"
    "Error: gateway unreachable" "Error: gateway unreachable" ""
    41 37 "" "" [].

(** ** run-scheduler.sh: the time window *)

Module Scheduler.
Section Script.

Variable NOW_UTC : string.       (* date -u +%Y-%m-%dT%H:%M:%SZ *)
Variable ISRAEL_TIME : string.   (* TZ='Asia/Jerusalem' date +%H:%M *)
Variable ISRAEL_HOUR : Z.        (* TZ='Asia/Jerusalem' date +%H *)
Variable ISRAEL_DAY : Z.         (* TZ='Asia/Jerusalem' date +%u, 1=Monday *)
Variable NY_TIME : string.       (* TZ='America/New_York' date +%H:%M *)
Variable NY_HOUR : Z.            (* TZ='America/New_York' date +%H *)

(** Lines 26-57: the script up to the point where it loads the
    environment and starts the processor.  Falling through means the
    processor is run. *)
Definition time_check : sh unit :=
  echo ("[" ++ NOW_UTC ++ "] Time check...") ;;
  echo ("  Israel time: " ++ ISRAEL_TIME ++ " (day " ++ show_Z ISRAEL_DAY
        ++ ")") ;;
  echo ("  NY time: " ++ NY_TIME) ;;
  (if ISRAEL_DAY =? 6 then
     echo "  ⏸ Skipping: Shabbat (Saturday)" ;;
     exit 0
   else if ISRAEL_DAY =? 5 then
     (if ISRAEL_HOUR >=? 18 then
        echo "  ⏸ Skipping: Shabbat begins (Friday evening)" ;;
        exit 0
      else ret tt)
   else ret tt) ;;
  (if ISRAEL_HOUR <? 9 then
     echo "  ⏸ Skipping: Before 9am Israel time" ;;
     exit 0
   else ret tt) ;;
  (if NY_HOUR >=? 18 then
     echo "  ⏸ Skipping: After 6pm NY time" ;;
     exit 0
   else ret tt) ;;
  echo "  ✓ Time check passed - running processor" ;;
  echo EmptyString.

End Script.
End Scheduler.

(** ** load-env.sh: reading .env and exporting per job *)

Module LoadEnv.

(** The class [[:space:]]: space, tab, newline, vertical tab, form feed,
    carriage return. *)
Definition is_space (c : ascii) : bool :=
  let n := nat_of_ascii c in
  (n =? 32)%nat || ((9 <=? n)%nat && (n <=? 13)%nat).

(** [line="${line#"${line%%[![:space:]]*}"}"] *)
Fixpoint trim_leading (line : string) : string :=
  match line with
  | EmptyString => EmptyString
  | String c rest => if is_space c then trim_leading rest else line
  end.

(** ["${line#prefix}"] for a literal prefix. *)
Definition strip_prefix (p line : string) : string :=
  if String.prefix p line then skip (String.length p) line else line.

(** ["${line%%=*}"]: what precedes the first "=", the whole line when
    there is none. *)
Fixpoint key_of (line : string) : string :=
  match line with
  | EmptyString => EmptyString
  | String c rest =>
      if Ascii.eqb c "="%char then EmptyString else String c (key_of rest)
  end.

Fixpoint after_first_eq (line : string) : option string :=
  match line with
  | EmptyString => None
  | String c rest =>
      if Ascii.eqb c "="%char then Some rest else after_first_eq rest
  end.

(** ["${line#*=}"]: what follows the first "=", the whole line when there
    is none. *)
Definition val_of (line : string) : string :=
  match after_first_eq line with
  | Some v => v
  | None => line
  end.

(** ["${val%c}"]: drop a final [c]. *)
Fixpoint strip_last (c : ascii) (val : string) : string :=
  match val with
  | EmptyString => EmptyString
  | String a EmptyString =>
      if Ascii.eqb a c then EmptyString else val
  | String a rest => String a (strip_last c rest)
  end.

(** ["${val#c}"]: drop a leading [c]. *)
Definition strip_first (c : ascii) (val : string) : string :=
  match val with
  | EmptyString => EmptyString
  | String a rest => if Ascii.eqb a c then rest else val
  end.

Definition double_quote : ascii := ascii_of_nat 34.
Definition single_quote : ascii := ascii_of_nat 39.

(** Lines 30-31. *)
Definition strip_quotes (val : string) : string :=
  let val := strip_last double_quote val in
  let val := strip_first double_quote val in
  let val := strip_last single_quote val in
  strip_first single_quote val.

(** Lines 25-31: what one line of .env contributes to [ALL_VARS]; [None]
    for a line the loop skips. *)
Definition parse_line (raw : string) : option (string * string) :=
  let line := trim_leading raw in
  if is_empty line || String.prefix "#" line then None
  else
    let line := strip_prefix "export " line in
    let key := key_of line in
    let val := val_of line in
    Some (key, strip_quotes val).

(** The associative array [ALL_VARS] and the exported environment, as
    lists of bindings read from the front. *)
Fixpoint lookup (key : string) (vars : list (string * string))
  : option string :=
  match vars with
  | [] => None
  | (k, v) :: rest => if String.eqb k key then Some v else lookup key rest
  end.

(** Lines 36-41. *)
Definition export_var (ALL_VARS : list (string * string)) (key : string)
    (exported : list (string * string)) : list (string * string) :=
  match lookup key ALL_VARS with
  | Some v => (key, v) :: exported
  | None => exported
  end.

(** The [case] of lines 50-84: the variables each known job gets. *)
Definition job_keys (JOB : string) : option (list string) :=
  if String.eqb JOB "meeting-reminders" then
    Some ["GOG_KEYRING_PASSWORD"; "GOG_ACCOUNT"; "MATON_API_KEY";
          "ANTHROPIC_API_KEY"; "BRAVE_SEARCH_API_KEY"]
  else if String.eqb JOB "meeting-bot" then
    Some ["GOG_KEYRING_PASSWORD"; "GOG_ACCOUNT"; "ANTHROPIC_API_KEY"]
  else if String.eqb JOB "email-to-deal" then
    Some ["GOG_KEYRING_PASSWORD"; "GOG_ACCOUNT"; "MATON_API_KEY";
          "ANTHROPIC_API_KEY"]
  else if String.eqb JOB "founder-scout" then
    Some ["ANTHROPIC_API_KEY"; "GOG_KEYRING_PASSWORD"; "GOG_ACCOUNT"]
  else if String.eqb JOB "watchdog" then
    Some ["ASSISTANT_WHATSAPP_PHONE"; "ALERT_PHONE"; "ALERT_EMAIL";
          "GOG_ACCOUNT"; "GOG_KEYRING_PASSWORD"; "TWILIO_ACCOUNT_SID";
          "TWILIO_API_KEY_SID"; "TWILIO_API_KEY_SECRET";
          "TWILIO_FROM_NUMBER"]
  else None.

(** Lines 50-84 for a known job with the variables [keys]: the bindings
    the script adds to the environment of the command it then runs, the
    last exported first. *)
Definition export_vars (ALL_VARS : list (string * string))
    (keys : list string) : list (string * string) :=
  fold_left (fun exported key => export_var ALL_VARS key exported) keys [].

End LoadEnv.

(** ** Successive runs and the order of events *)

(** The part of a trace that precedes its first event of kind [p] (all of
    it when there is none). *)
Fixpoint before (p : event -> bool) (t : list event) : list event :=
  match t with
  | [] => []
  | e :: rest => if p e then [] else e :: before p rest
  end.

Definition is_netrc_write (e : event) : bool :=
  match e with
  | NetrcWrite => true
  | _ => false
  end.

Definition is_netrc_remove (e : event) : bool :=
  match e with
  | NetrcRemove => true
  | _ => false
  end.

Definition is_state_write (e : event) : bool :=
  match e with
  | WriteState _ => true
  | _ => false
  end.

(** The timestamp a run of the watchdog starts from, line 32. *)
Definition last_alert_of (file : option Z) : Z :=
  match file with
  | Some v => v
  | None => 0
  end.

(** Both sends of a run fail. *)
Definition both_fail (send : nat -> cmd_result) : Prop :=
  rc (send 0%nat) <> 0 /\ rc (send 1%nat) <> 0.

(** One firing of the cron job ("Runs every 5 minutes via cron"): what the
    clock and the outside answer to that process. *)
Record tick : Type := mk_tick {
  tick_stamp : string;
  tick_now   : Z;
  tick_send  : nat -> cmd_result;
  tick_pgrep : string
}.

Definition watchdog_tick (env : environ) (t : tick) (file : option Z)
  : Z * world :=
  run (Watchdog.main env (tick_stamp t) (tick_now t) (tick_send t)
         (tick_pgrep t))
      (boot file).

Definition alerted (r : Z * world) : bool :=
  (0 <? count is_alert (trace (snd r)))%nat.

(** Successive firings: each is a fresh process that finds the state file
    as the previous one left it.  The clock readings of the firings that
    sent an alert, in order. *)
Fixpoint alert_times (env : environ) (ticks : list tick) (file : option Z)
  : list Z :=
  match ticks with
  | [] => []
  | t :: rest =>
      let r := watchdog_tick env t file in
      (if alerted r then [tick_now t] else [])
      ++ alert_times env rest (state_file (snd r))
  end.

(** Every time of the list is at least one cooldown after the one before
    it, starting from [last]. *)
Fixpoint spaced (last : Z) (times : list Z) : Prop :=
  match times with
  | [] => True
  | t :: rest => Watchdog.cooldown <= t - last /\ spaced t rest
  end.

Definition outage (t : tick) : Prop :=
  both_fail (tick_send t) /\ 0 <= tick_now t < 2 ^ 62.

Definition outage_at (now : Z) : tick :=
  mk_tick stamp now (always send_err) "4242".

(** The verdict of [check_whatsapp] on one answer of the status command. *)
Definition healthy_status (answer : cmd_result) : bool :=
  let status := capture (out answer) in
  contains "connected" status && negb (contains "disconnected" status).

Definition status_up : cmd_result := mk_result 0 "WhatsApp: connected".

(** ** What a run of health-check.sh adds up to *)

Definition is_service_restart (e : event) : bool :=
  match e with
  | ServiceRestart => true
  | _ => false
  end.

Definition is_gateway_restart (e : event) : bool :=
  match e with
  | GatewayRestart => true
  | _ => false
  end.

Definition is_du (e : event) : bool :=
  match e with
  | Du _ => true
  | _ => false
  end.

Definition bit (b : bool) : nat := if b then 1%nat else 0%nat.

(** The tests of [health-check.sh] on what the outside answered. *)
Definition gateway_up (answer : cmd_result) : bool :=
  String.eqb (ToolkitHealth.gw_status answer) "active".

Definition rpc_up (text : string) : bool :=
  grep_qi ["linked"] (capture text).

Definition whatsapp_up (text : string) : bool :=
  grep_qi ["linked"; "running"; "connected"] (capture text).

Definition heartbeat_disabled (text : string) : bool :=
  existsb (fun l => contains "disabled" (lower l)) (grep_i "heartbeat" text).

Definition camofox_up (text : string) : bool :=
  contains ToolkitHealth.camofox_ok (capture text).

Definition big (f : string * Z) : bool := snd f >=? 500.

(** [n] times [x=$((x+1))]. *)
Definition bump (n : nat) (x : Z) : Z :=
  Nat.iter n (fun v => wrap64 (v + 1)) x.

(** What a stretch of the script did: mails, calls, restarts of the
    systemd unit, restarts through the gateway command, calls of [fail],
    calls of [warn]. *)
Record effect : Type := mk_effect {
  mails            : nat;
  calls            : nat;
  unit_restarts    : nat;
  gateway_restarts : nat;
  fails            : nat;
  warns            : nat
}.

Definition effect_zero : effect := mk_effect 0 0 0 0 0 0.

Definition effect_add (a b : effect) : effect :=
  {| mails := mails a + mails b;
     calls := calls a + calls b;
     unit_restarts := unit_restarts a + unit_restarts b;
     gateway_restarts := gateway_restarts a + gateway_restarts b;
     fails := fails a + fails b;
     warns := warns a + warns b |}.

Definition event_effect (e : event) : effect :=
  {| mails := count is_email [e];
     calls := count is_call [e];
     unit_restarts := count is_service_restart [e];
     gateway_restarts := count is_gateway_restart [e];
     fails := 0;
     warns := 0 |}.

(** [m] always falls through, appends events with the counts of [E] to
    the trace, bumps the two counters as [E] says, and leaves the state
    file and the probe counter alone. *)
Definition yields {A} (m : sh A) (E : effect) : Prop :=
  forall w, exists a w' (evs : list event),
    m w = (Done a, w')
    /\ trace w' = (trace w ++ evs)%list
    /\ count is_email evs = mails E
    /\ count is_call evs = calls E
    /\ count is_service_restart evs = unit_restarts E
    /\ count is_gateway_restart evs = gateway_restarts E
    /\ FAILURES w' = bump (fails E) (FAILURES w)
    /\ WARNINGS w' = bump (warns E) (WARNINGS w)
    /\ state_file w' = state_file w
    /\ probes w' = probes w.

(** The effect of one run of [health-check.sh], read off its answers. *)
Definition toolkit_effect (inp : ToolkitHealth.inputs) : effect :=
  let gw1 := gateway_up (ToolkitHealth.is_active_1 inp) in
  let gw2 := gateway_up (ToolkitHealth.is_active_2 inp) in
  let rpc := rpc_up (ToolkitHealth.health_output inp) in
  let wa1 := whatsapp_up (ToolkitHealth.wa_output inp) in
  let linked := rpc_up (ToolkitHealth.wa_output inp) in
  let wa2 := whatsapp_up (ToolkitHealth.wa_output2 inp) in
  let hb := heartbeat_disabled (ToolkitHealth.status_output inp) in
  let disk := ToolkitHealth.disk_pct inp >=? 90 in
  let mem := ToolkitHealth.mem_pct inp >=? 90 in
  let cam1 := camofox_up (ToolkitHealth.camofox_health inp) in
  let cam2 := camofox_up (ToolkitHealth.camofox_health2 inp) in
  {| mails := bit (negb gw1 && negb gw2) + bit (negb wa1 && negb wa2)
              + bit disk;
     calls := 0;
     unit_restarts := bit (negb gw1);
     gateway_restarts := bit (negb rpc) + bit (negb wa1);
     fails := bit (negb gw1) + bit (negb gw1 && negb gw2) + bit (negb rpc)
              + bit (negb wa1 && negb linked) + bit (negb wa1 && negb wa2)
              + bit (negb cam1 && negb cam2);
     warns := bit (negb wa1 && linked) + bit hb + bit disk + bit mem
              + bit (negb cam1)
              + List.length (List.filter big (ToolkitHealth.log_files inp)) |}.

(** The line the summary prints for [f] failures and [w] warnings. *)
Definition summary_line (ts : string) (f w : Z) : string :=
  if (f =? 0) && (w =? 0)
  then "[" ++ ts ++ "] " ++ "Health check PASSED - all systems healthy"
  else "[" ++ ts ++ "] " ++ "Health check COMPLETE: " ++ show_Z f
       ++ " failure(s), " ++ show_Z w ++ " warning(s)".

(** A host on which every check passes, with two small log files. *)
Definition all_up : ToolkitHealth.inputs :=
  ToolkitHealth.mk_inputs
    (mk_result 0 ("active" ++ String newline EmptyString))
    (mk_result 0 ("active" ++ String newline EmptyString))
    "WhatsApp: linked" "WhatsApp: linked, running, connected"
    "WhatsApp: linked, running, connected" "Heartbeat: enabled (main)" ""
    41 37 (dquote ++ "ok" ++ dquote ++ ":true") ""
    [("/var/log/meeting-bot.log", 12); ("/var/log/toolkit-health.log", 3)].

(** [health-check.sh] up to its summary, lines 52-183. *)
Definition checks (env : environ) (ts : string) (inp : ToolkitHealth.inputs)
  : sh unit :=
  ToolkitHealth.log ts "=====================================" ;;
  ToolkitHealth.log ts "GroundUp Toolkit Health Check Start" ;;
  ToolkitHealth.log ts "=====================================" ;;
  ToolkitHealth.gateway_process_check env ts inp ;;
  ToolkitHealth.gateway_rpc_probe ts inp ;;
  ToolkitHealth.whatsapp_connection_check env ts inp ;;
  ToolkitHealth.agent_heartbeat_check ts inp ;;
  ToolkitHealth.disk_memory_check env ts inp ;;
  ToolkitHealth.camofox_browser_check ts inp ;;
  ToolkitHealth.log_size_check ts inp.


(** Two computations that do the same from every world. *)
Definition sh_eq {A} (m m' : sh A) : Prop := forall w, m w = m' w.


(** ** Shapes of .env lines *)

(** A run of white space. *)
Fixpoint all_space (s : string) : bool :=
  match s with
  | EmptyString => true
  | String a rest => LoadEnv.is_space a && all_space rest
  end.

Definition starts_with (c : ascii) (s : string) : bool :=
  match s with
  | EmptyString => false
  | String a _ => Ascii.eqb a c
  end.

Fixpoint ends_with (c : ascii) (s : string) : bool :=
  match s with
  | EmptyString => false
  | String a EmptyString => Ascii.eqb a c
  | String _ rest => ends_with c rest
  end.

Fixpoint has_char (c : ascii) (s : string) : bool :=
  match s with
  | EmptyString => false
  | String a rest => Ascii.eqb a c || has_char c rest
  end.

(** A name as .env files write them: not empty, starting with neither
    white space nor "#", not the word "export " itself, without "=". *)
Definition plain_key (key : string) : Prop :=
  is_empty key = false
  /\ LoadEnv.trim_leading key = key
  /\ starts_with "#" key = false
  /\ String.prefix "export " key = false
  /\ has_char "=" key = false.

(** A value that neither starts nor ends with a quote character. *)
Definition bare (val : string) : Prop :=
  starts_with LoadEnv.double_quote val = false
  /\ starts_with LoadEnv.single_quote val = false
  /\ ends_with LoadEnv.double_quote val = false
  /\ ends_with LoadEnv.single_quote val = false.


(** [key] is on the list of a job. *)
Definition listed (key : string) (keys : list string) : bool :=
  existsb (String.eqb key) keys.


(** Log files as [du -m] reports them, one of them past the limit. *)
Definition sample_logs : list (string * Z) :=
  [("/tmp/openclaw/gateway.log", 812); ("/var/log/meeting-bot.log", 12)].

(** A .env file's worth of variables. *)
Definition sample_vars : list (string * string) :=
  [("ANTHROPIC_API_KEY", "sk-ant-0001"); ("ALERT_EMAIL", "ops@example.com");
   ("TWILIO_ACCOUNT_SID", "AC0001"); ("MATON_API_KEY", "mt-0001")].

(** ** Proof automation: running a script symbolically *)

Ltac unfold_script :=
  cbv beta iota zeta delta
    [run fst snd bind ret return_ exit call emit echo probe_cmd
     read_state write_state boot with_trace
     state_file probes FAILURES WARNINGS trace app
     Watchdog.main Watchdog.try_send Watchdog.restart_gateway
     Watchdog.send_alert Watchdog.log Watchdog.fail
     Healthcheck.main Healthcheck.check_whatsapp
     Healthcheck.restart_gateway Healthcheck.log Healthcheck.fail].

(** The tests [if f; then] on the status a function returned are closed. *)
Ltac decide_status :=
  first [ progress change (0 =? 0) with true
        | progress change (1 =? 0) with false ].

Ltac run_script := unfold_script; repeat (decide_status; unfold_script).

(** Split on the first test of the script that is still undecided. *)
Ltac branch :=
  match goal with
  | |- context [if ?c then _ else _] => destruct c eqn:?; run_script
  end.

Ltac paths :=
  intros;
  repeat match goal with x := _ |- _ => subst x end;
  run_script; repeat branch.

Ltac tally :=
  cbv beta iota zeta delta
    [within dispatched count List.filter List.length is_probe is_recovery
     is_escalation is_alert is_call is_email orb fst snd trace state_file].

(** A branch the hypotheses on the probe answers rule out. *)
Ltac off_path :=
  match goal with
  | H : (?a =? ?b) = true, N : ?a <> ?b |- _ =>
      exfalso; apply N; apply Z.eqb_eq; exact H
  | H : (?a =? ?b) = false, E : ?a = ?b |- _ =>
      exfalso; apply Z.eqb_neq in H; exact (H E)
  | H : ?b = true, H' : ?b = false |- _ =>
      exfalso; rewrite H in H'; discriminate H'
  | H : true = false |- _ => discriminate H
  | H : false = true |- _ => discriminate H
  end.

Ltac completes_step :=
  match goal with
  | |- completes (if ?c then _ else _) => destruct c
  | |- completes (let _ := _ in _) => cbv zeta
  end.

(** ** Shell arithmetic *)

Lemma wrap64_exact z : - 2 ^ 63 <= z < 2 ^ 63 -> wrap64 z = z.
Proof.
  intros H. unfold wrap64.
  rewrite Z.mod_small by lia. lia.
Qed.

Lemma sub64_exact a b : - 2 ^ 63 <= a - b < 2 ^ 63 -> sub64 a b = a - b.
Proof. intros H. unfold sub64. now apply wrap64_exact. Qed.

Lemma sub64_since T d : - 2 ^ 63 <= d < 2 ^ 63 -> sub64 (T + d) T = d.
Proof.
  intros H. rewrite sub64_exact; replace (T + d - T) with d by lia; auto.
Qed.

(** ** Sample evaluations of the text helpers and of one run *)

Example capture_drops_final_newlines :
  capture ("active" ++ String newline (String newline EmptyString)) = "active".
Proof. reflexivity. Qed.

Example gw_status_of_failed_unit :
  ToolkitHealth.gw_status (mk_result 3 ("failed" ++ String newline EmptyString))
  = "failed" ++ String newline "inactive".
Proof. reflexivity. Qed.

Example disconnected_contains_connected :
  contains "connected" "WhatsApp: disconnected" = true
  /\ contains "disconnected" "WhatsApp: connected" = false.
Proof. split; reflexivity. Qed.

Example grep_qi_needs_one_line :
  grep_qi ["linked"; "running"; "connected"]
          ("WhatsApp: Linked, Running, Connected") = true
  /\ grep_qi ["linked"; "running"; "connected"]
             ("linked" ++ String newline "running, connected") = false.
Proof. split; reflexivity. Qed.

Example watchdog_healthy_run :
  run (Watchdog.main with_twilio stamp 1700000300 (always send_ok) "4242")
      (boot (Some 1700000000))
  = (0, {| state_file := Some 0; probes := 1; FAILURES := 0; WARNINGS := 0;
           trace := [Stdout "[2026-01-01T00:00:00Z] WhatsApp Watchdog: Starting health check...";
                     MessageSend "+15550001";
                     Stdout "[2026-01-01T00:00:00Z] WhatsApp Watchdog: OK - WhatsApp is healthy";
                     WriteState 0] |}).
Proof. reflexivity. Qed.

Example watchdog_cooldown_run :
  let r := run (Watchdog.main with_twilio stamp 1700001800 (always send_err)
                  "4242")
               (boot (Some 1700000000)) in
  fst r = 1
  /\ state_file (snd r) = Some 1700000000
  /\ logged "[2026-01-01T00:00:00Z] WhatsApp Watchdog: Alert cooldown active (1800s < 3600s), skipping"
            (trace (snd r))
  /\ ~ dispatched (snd r).
Proof.
  vm_compute. repeat split; auto 30. intros H. lia.
Qed.

(** ** Bounded probing and recovery *)

(** C1 (as amended).  Whatever the probes answer, one run of
    [whatsapp-watchdog.sh] issues at most 2 probes and restarts the gateway
    at most once; one run of [whatsapp-healthcheck.sh] issues at most 3
    probes and restarts the gateway at most twice. *)
Theorem probes_and_restarts_bounded :
  forall env ts now send pg chan file,
    within 2 1 (snd (run (Watchdog.main env ts now send pg) (boot file)))
    /\ within 3 2 (snd (run (Healthcheck.main ts chan) (boot file))).
Proof.
  intros; split.
  - paths; tally; lia.
  - paths; tally; lia.
Qed.

(** C1 fails as stated: with a gateway that stays disconnected,
    [whatsapp-healthcheck.sh] probes three times and restarts twice. *)
Lemma healthcheck_third_probe :
  ~ within 2 1
      (snd (run (Healthcheck.main stamp (always status_down)) (boot None))).
Proof.
  vm_compute. intros [H _]. lia.
Qed.

(** ** The alert cooldown *)

(** C2, at the failing input.  Twilio unset, last alert at [T], both sends
    failing at [T + 1800]: the script mails the alert all the same and
    moves the persisted timestamp to [T + 1800]. *)
Theorem cooldown_bypassed_without_twilio :
  forall T,
    let r := run (Watchdog.main no_twilio stamp (T + 1800) (always send_err)
                    "4242")
                 (boot (Some T)) in
    fst r = 1
    /\ count is_email (trace (snd r)) = 1%nat
    /\ state_file (snd r) = Some (T + 1800).
Proof.
  intros T r; subst r.
  run_script.
  change (rc (always send_err 0%nat) =? 0) with false.
  run_script.
  change (rc (always send_err 1%nat) =? 0) with false.
  run_script.
  change (Watchdog.twilio_unconfigured no_twilio) with true.
  run_script. tally. auto.
Qed.

(** The sibling path: with Twilio configured the cooldown is honoured, for
    the call and for the mail, and the timestamp stays. *)
Lemma cooldown_honoured_with_twilio :
  forall env ts now send pg T,
    Watchdog.twilio_unconfigured env = false ->
    rc (send 0%nat) <> 0 -> rc (send 1%nat) <> 0 ->
    - 2 ^ 63 <= now - T < Watchdog.cooldown ->
    let r := run (Watchdog.main env ts now send pg) (boot (Some T)) in
    fst r = 1
    /\ count is_alert (trace (snd r)) = 0%nat
    /\ state_file (snd r) = Some T.
Proof.
  intros env ts now send pg T Ht N0 N1 Hwin r; subst r.
  assert (Hc : (sub64 now T <? Watchdog.cooldown) = true).
  { unfold Watchdog.cooldown in *.
    rewrite sub64_exact by lia. apply Z.ltb_lt. lia. }
  paths; try off_path; tally; auto.
Qed.

(** C5.  A failing run 3700 s after the last alert is past the cooldown:
    the mail goes out (and the call, when Twilio is configured) and the
    persisted timestamp becomes [T + 3700]. *)
Theorem alert_after_cooldown :
  forall env ts send pg T,
    rc (send 0%nat) <> 0 -> rc (send 1%nat) <> 0 ->
    let now := T + 3700 in
    let r := run (Watchdog.main env ts now send pg) (boot (Some T)) in
    (sub64 now T <? Watchdog.cooldown) = false
    /\ count is_email (trace (snd r)) = 1%nat
    /\ count is_call (trace (snd r))
       = (if Watchdog.twilio_unconfigured env then 0 else 1)%nat
    /\ In (WriteState now) (trace (snd r))
    /\ state_file (snd r) = Some now.
Proof.
  intros env ts send pg T N0 N1 now r; subst r now.
  assert (Hc : (sub64 (T + 3700) T <? Watchdog.cooldown) = false).
  { rewrite sub64_since by lia. reflexivity. }
  split; [exact Hc|].
  paths; try off_path; tally; repeat split; auto;
    cbv [In]; auto 30.
Qed.

Lemma alert_after_cooldown_witness :
  rc (always send_err 0%nat) <> 0 /\ rc (always send_err 1%nat) <> 0
  /\ state_file
       (snd (run (Watchdog.main with_twilio stamp (1700000000 + 3700)
                    (always send_err) "4242")
                 (boot (Some 1700000000))))
     = Some (1700000000 + 3700).
Proof.
  assert (N0 : rc (always send_err 0%nat) <> 0) by (vm_compute; discriminate).
  assert (N1 : rc (always send_err 1%nat) <> 0) by (vm_compute; discriminate).
  split; [exact N0 | split; [exact N1 |]].
  exact (proj2 (proj2 (proj2 (proj2
    (alert_after_cooldown with_twilio stamp (always send_err) "4242"
       1700000000 N0 N1))))).
Defined.

(** ** Exit status and escalation *)

Lemma completes_ret {A} (a : A) : completes (ret a).
Proof. intros w. exists a, w. reflexivity. Qed.

Lemma completes_emit e : completes (emit e).
Proof. intros w. eexists; eexists. reflexivity. Qed.

Lemma completes_bind {A B} (m : sh A) (k : A -> sh B) :
  completes m -> (forall a, completes (k a)) -> completes (bind m k).
Proof.
  intros Hm Hk w. destruct (Hm w) as (a & w1 & E).
  unfold bind. rewrite E. apply Hk.
Qed.

(** A function whose body falls through hands back status 0. *)
Lemma completes_call body : completes body -> completes (call body).
Proof.
  intros Hb w. destruct (Hb w) as (a & w1 & E).
  unfold call. rewrite E. eexists; eexists. reflexivity.
Qed.

Lemma completes_log ts msg : completes (ToolkitHealth.log ts msg).
Proof. apply completes_emit. Qed.

Lemma completes_warn ts msg : completes (ToolkitHealth.warn ts msg).
Proof.
  apply completes_bind; [apply completes_emit|].
  intros _ w. eexists; eexists. reflexivity.
Qed.

Lemma completes_fail ts msg : completes (ToolkitHealth.fail ts msg).
Proof.
  apply completes_bind; [apply completes_emit|].
  intros _ w. eexists; eexists. reflexivity.
Qed.

Lemma completes_send_alert env ts subject body :
  completes (ToolkitHealth.send_alert env ts subject body).
Proof.
  apply completes_call.
  repeat (apply completes_bind; [|intros _]);
    first [apply completes_emit | apply completes_log].
Qed.

Create HintDb sh.

#[local] Hint Resolve completes_ret completes_emit completes_log completes_warn
  completes_fail completes_send_alert : sh.

Ltac completes_tac :=
  cbv zeta;
  repeat first
    [ solve [auto with sh]
    | apply completes_bind; [|intros ?]
    | completes_step ].

Lemma completes_log_size_loop ts files :
  completes (ToolkitHealth.log_size_loop ts files).
Proof.
  induction files as [|[logfile size] rest IH]; cbn [ToolkitHealth.log_size_loop].
  - apply completes_ret.
  - completes_tac.
Qed.

Lemma completes_summary ts : completes (ToolkitHealth.summary ts).
Proof.
  unfold ToolkitHealth.summary.
  apply completes_bind; [|intros _; apply completes_log].
  intros w. cbv beta.
  destruct ((FAILURES w =? 0) && (WARNINGS w =? 0)); apply completes_log.
Qed.

#[local] Hint Resolve completes_log_size_loop completes_summary : sh.

(** [health-check.sh] has no [exit]: every step falls through to the
    next. *)
Lemma completes_toolkit_main env ts inp :
  completes (ToolkitHealth.main env ts inp).
Proof.
  unfold ToolkitHealth.main, ToolkitHealth.gateway_process_check,
    ToolkitHealth.gateway_rpc_probe, ToolkitHealth.whatsapp_connection_check,
    ToolkitHealth.agent_heartbeat_check, ToolkitHealth.disk_memory_check,
    ToolkitHealth.camofox_browser_check, ToolkitHealth.log_size_check.
  completes_tac.
Qed.

Lemma toolkit_exit_zero env ts inp w :
  fst (run (ToolkitHealth.main env ts inp) w) = 0.
Proof.
  destruct (completes_toolkit_main env ts inp w) as (a & w1 & E).
  unfold run. rewrite E. reflexivity.
Qed.

(** C3 (as amended).  [whatsapp-watchdog.sh] exits 1, having entered
    [send_alert] exactly once, when both sends fail; it exits 0, without
    escalating, when the first send or the send after the restart
    succeeds.  [health-check.sh] exits 0 whatever it found. *)
Theorem exit_status_and_escalation :
  forall env ts now send pg file tenv tts inp tw,
    let r := run (Watchdog.main env ts now send pg) (boot file) in
    (rc (send 0%nat) <> 0 -> rc (send 1%nat) <> 0 ->
     fst r = 1 /\ count is_escalation (trace (snd r)) = 1%nat)
    /\ (rc (send 0%nat) = 0 \/ rc (send 1%nat) = 0 ->
        fst r = 0 /\ count is_escalation (trace (snd r)) = 0%nat)
    /\ fst (run (ToolkitHealth.main tenv tts inp) tw) = 0.
Proof.
  intros env ts now send pg file tenv tts inp tw r; subst r.
  split; [|split].
  - paths; try off_path; tally; auto.
  - intros [E | E]; paths; try off_path; tally; auto.
  - apply toolkit_exit_zero.
Qed.

Lemma exit_status_and_escalation_witness :
  rc (always send_err 0%nat) <> 0 /\ rc (always send_err 1%nat) <> 0
  /\ fst (run (Watchdog.main no_twilio stamp 1700001800 (always send_err)
                 "4242")
              (boot (Some 1700000000))) = 1.
Proof.
  assert (N0 : rc (always send_err 0%nat) <> 0) by (vm_compute; discriminate).
  assert (N1 : rc (always send_err 1%nat) <> 0) by (vm_compute; discriminate).
  split; [exact N0 | split; [exact N1 |]].
  exact (proj1 (proj1
    (exit_status_and_escalation no_twilio stamp 1700001800 (always send_err)
       "4242" (Some 1700000000) no_twilio stamp all_down (boot None))
    N0 N1)).
Defined.

(** C3 fails as stated on [health-check.sh]: with the gateway still down
    after its restart the script reports the failure, mails two alerts,
    and exits 0. *)
Lemma toolkit_check_exits_zero_when_down :
  let r := run (ToolkitHealth.main no_twilio stamp all_down) (boot None) in
  logged ("[" ++ stamp ++ "] FAIL: Gateway failed to restart!") (trace (snd r))
  /\ ~ (fst r = 1 /\ count is_escalation (trace (snd r)) = 1%nat).
Proof.
  vm_compute. split.
  - auto 20.
  - intros [H _]. discriminate H.
Qed.

(** ** The probes *)

(** C4 (as amended).  Both probes always hand a status back to the caller,
    0 or 1, and never end the run.  [try_send] reports healthy exactly when
    the send command exits 0, whatever it printed; [check_whatsapp] reports
    healthy exactly when the status text has "connected" in it and not
    "disconnected", whatever the exit status. *)
Theorem probe_verdicts :
  forall env ts send chan w,
    fst (Watchdog.try_send env ts send w)
    = Done (if rc (send (probes w)) =? 0 then 0 else 1)
    /\ fst (Healthcheck.check_whatsapp chan w)
       = Done (let status := capture (out (chan (probes w))) in
               if contains "connected" status
                  && negb (contains "disconnected" status)
               then 0 else 1).
Proof.
  intros env ts send chan w. split.
  - unfold Watchdog.try_send, call, bind, probe_cmd, return_, Watchdog.fail,
      echo, emit; cbn [fst snd probes].
    destruct (rc (send (probes w)) =? 0); reflexivity.
  - unfold Healthcheck.check_whatsapp, call, bind, probe_cmd, return_, ret;
      cbn [fst snd probes]; cbv zeta.
    destruct (contains "connected" (capture (out (chan (probes w)))));
      [destruct (contains "disconnected" (capture (out (chan (probes w)))))|];
      reflexivity.
Qed.

(** C4 fails as stated, in both directions: a send that exits 0 counts as
    healthy even with a failure marker in its output, and a status command
    that exits 0 without any marker counts as unhealthy. *)
Lemma probe_verdict_differs_from_spec :
  (fst (Watchdog.try_send no_twilio stamp (always sent_but_disconnected)
          (boot None)) = Done 0
   /\ spec_healthy sent_but_disconnected = false)
  /\ (fst (Healthcheck.check_whatsapp (always linked_status) (boot None))
      = Done 1
      /\ spec_healthy linked_status = true).
Proof. vm_compute. auto. Qed.

(** ** The state file *)

(** C6.  Whatever the state file held, a run whose first send fails and
    whose send after the restart succeeds exits 0 and leaves 0 in the
    file. *)
Theorem recovered_resets_state :
  forall env ts now send pg file,
    rc (send 0%nat) <> 0 -> rc (send 1%nat) = 0 ->
    let r := run (Watchdog.main env ts now send pg) (boot file) in
    fst r = 0 /\ state_file (snd r) = Some 0.
Proof.
  paths; try off_path; tally; auto.
Qed.

Lemma recovered_resets_state_witness :
  rc (first_then send_err send_ok 0%nat) <> 0
  /\ rc (first_then send_err send_ok 1%nat) = 0
  /\ state_file
       (snd (run (Watchdog.main with_twilio stamp 1700000900
                    (first_then send_err send_ok) "4242")
                 (boot (Some 1700000000))))
     = Some 0.
Proof.
  assert (N0 : rc (first_then send_err send_ok 0%nat) <> 0)
    by (vm_compute; discriminate).
  assert (E1 : rc (first_then send_err send_ok 1%nat) = 0) by reflexivity.
  split; [exact N0 | split; [exact E1 |]].
  exact (proj2
    (recovered_resets_state with_twilio stamp 1700000900
       (first_then send_err send_ok) "4242" (Some 1700000000) N0 E1)).
Defined.

(** C7.  A state file that cannot be read (missing or unreadable) counts
    as a last alert at 0, "never alerted", and never stops the run; a run
    with both sends failing then sends the alert and records [now].  The
    clock is a present-day reading of [date +%s]: at least one cooldown
    (3600 s) past the epoch and within 64 bits. *)
Theorem missing_state_reads_as_zero :
  forall env ts now send pg,
    read_state (boot None) = (Done 0, boot None)
    /\ (rc (send 0%nat) <> 0 -> rc (send 1%nat) <> 0 ->
        Watchdog.cooldown <= now < 2 ^ 63 ->
        let r := run (Watchdog.main env ts now send pg) (boot None) in
        fst r = 1
        /\ dispatched (snd r)
        /\ count is_email (trace (snd r)) = 1%nat
        /\ state_file (snd r) = Some now).
Proof.
  intros env ts now send pg. split; [reflexivity|].
  intros N0 N1 Hr r; subst r.
  assert (Hc : (sub64 now 0 <? Watchdog.cooldown) = false).
  { unfold Watchdog.cooldown in *.
    rewrite sub64_exact by lia. apply Z.ltb_ge. lia. }
  paths; try off_path; tally; repeat split; auto; lia.
Qed.

Lemma missing_state_reads_as_zero_witness :
  rc (always send_err 0%nat) <> 0 /\ rc (always send_err 1%nat) <> 0
  /\ Watchdog.cooldown <= 1700000000 < 2 ^ 63
  /\ dispatched
       (snd (run (Watchdog.main with_twilio stamp 1700000000
                    (always send_err) "4242")
                 (boot None))).
Proof.
  assert (N0 : rc (always send_err 0%nat) <> 0) by (vm_compute; discriminate).
  assert (N1 : rc (always send_err 1%nat) <> 0) by (vm_compute; discriminate).
  assert (Hr : Watchdog.cooldown <= 1700000000 < 2 ^ 63)
    by (unfold Watchdog.cooldown; lia).
  split; [exact N0 | split; [exact N1 | split; [exact Hr |]]].
  exact (proj1 (proj2
    (proj2 (missing_state_reads_as_zero with_twilio stamp 1700000000
              (always send_err) "4242")
       N0 N1 Hr))).
Defined.

(** C8.  With a Twilio variable unset, a run whose two sends fail logs that
    the call is skipped, places no call, mails the alert, and exits 1. *)
Theorem voice_skipped_without_credentials :
  forall env ts now send pg file,
    Watchdog.twilio_unconfigured env = true ->
    rc (send 0%nat) <> 0 -> rc (send 1%nat) <> 0 ->
    let r := run (Watchdog.main env ts now send pg) (boot file) in
    logged (Watchdog.LOG_PREFIX ts ++ " "
            ++ "Twilio not configured, skipping call alert")
           (trace (snd r))
    /\ count is_call (trace (snd r)) = 0%nat
    /\ count is_email (trace (snd r)) = 1%nat
    /\ fst r = 1.
Proof.
  paths; try off_path; tally; repeat split; auto.
  cbv [logged In]; auto 30.
Qed.

Lemma voice_skipped_without_credentials_witness :
  Watchdog.twilio_unconfigured no_twilio = true
  /\ rc (always send_err 0%nat) <> 0 /\ rc (always send_err 1%nat) <> 0
  /\ fst (run (Watchdog.main no_twilio stamp 1700007200 (always send_err)
                 "4242")
              (boot (Some 1700000000))) = 1.
Proof.
  assert (Ht : Watchdog.twilio_unconfigured no_twilio = true) by reflexivity.
  assert (N0 : rc (always send_err 0%nat) <> 0) by (vm_compute; discriminate).
  assert (N1 : rc (always send_err 1%nat) <> 0) by (vm_compute; discriminate).
  split; [exact Ht | split; [exact N0 | split; [exact N1 |]]].
  exact (proj2 (proj2 (proj2
    (voice_skipped_without_credentials no_twilio stamp 1700007200
       (always send_err) "4242" (Some 1700000000) Ht N0 N1)))).
Defined.

(** C9.  Two runs in a row with a healthy gateway both exit 0, and the
    second leaves the state file as the first left it. *)
Theorem healthy_runs_idempotent :
  forall env ts1 ts2 now1 now2 send1 send2 pg1 pg2 file,
    rc (send1 0%nat) = 0 -> rc (send2 0%nat) = 0 ->
    let r1 := run (Watchdog.main env ts1 now1 send1 pg1) (boot file) in
    let r2 := run (Watchdog.main env ts2 now2 send2 pg2)
                  (boot (state_file (snd r1))) in
    fst r1 = 0 /\ fst r2 = 0 /\ state_file (snd r2) = state_file (snd r1).
Proof.
  paths; try off_path; tally; auto.
Qed.

Lemma healthy_runs_idempotent_witness :
  rc (always send_ok 0%nat) = 0
  /\ state_file
       (snd (run (Watchdog.main with_twilio stamp 1700000301 (always send_ok)
                    "4242")
                 (boot (state_file
                    (snd (run (Watchdog.main with_twilio stamp 1700000300
                                 (always send_ok) "4242")
                              (boot (Some 1700000000))))))))
     = state_file
         (snd (run (Watchdog.main with_twilio stamp 1700000300
                      (always send_ok) "4242")
                   (boot (Some 1700000000)))).
Proof.
  assert (E : rc (always send_ok 0%nat) = 0) by reflexivity.
  split; [exact E |].
  exact (proj2 (proj2
    (healthy_runs_idempotent with_twilio stamp stamp 1700000300 1700000301
       (always send_ok) (always send_ok) "4242" "4242" (Some 1700000000)
       E E))).
Defined.

(** C10.  Whatever the state file held, a run in which the first send or
    the send after the restart succeeds writes 0 to it; so every run that
    exits 0 leaves 0 in the file. *)
Theorem success_writes_zero :
  forall env ts now send pg file,
    let r := run (Watchdog.main env ts now send pg) (boot file) in
    (rc (send 0%nat) = 0 \/ rc (send 1%nat) = 0 ->
     In (WriteState 0) (trace (snd r)) /\ state_file (snd r) = Some 0)
    /\ (fst r = 0 -> state_file (snd r) = Some 0).
Proof.
  intros env ts now send pg file r; subst r. split.
  - intros [E | E]; paths; try off_path; tally; split; auto;
      cbv [In]; auto 30.
  - run_script; repeat branch; tally; auto; intros H; discriminate H.
Qed.

Lemma success_writes_zero_witness :
  rc (always send_ok 0%nat) = 0
  /\ state_file
       (snd (run (Watchdog.main no_twilio stamp 1700000300 (always send_ok)
                    "4242")
                 (boot None)))
     = Some 0.
Proof.
  assert (E : rc (always send_ok 0%nat) = 0) by reflexivity.
  split; [exact E |].
  exact (proj2 (proj1
    (success_writes_zero no_twilio stamp 1700000300 (always send_ok) "4242"
       None)
    (or_introl E))).
Defined.

(** ** Further properties of the watchdog *)

Ltac count_events :=
  cbv beta iota zeta delta
    [within dispatched alerted count List.filter List.length before
     is_probe is_recovery is_escalation is_alert is_call is_email
     is_netrc_write is_netrc_remove is_state_write orb fst snd trace
     state_file last_alert_of Nat.ltb Nat.leb].

(** A split on a test that the earlier splits had already decided. *)
Ltac closed_test :=
  match goal with
  | H : _ = true |- _ => cbn [andb orb negb] in H; discriminate H
  | H : _ = false |- _ => cbn [andb orb negb] in H; discriminate H
  end.

(** X1.  When the first send succeeds the watchdog stops there: one probe,
    no restart of the gateway, no escalation, no alert. *)
Theorem healthy_run_leaves_gateway_alone :
  forall env ts now send pg file,
    rc (send 0%nat) = 0 ->
    let w := snd (run (Watchdog.main env ts now send pg) (boot file)) in
    count is_probe (trace w) = 1%nat
    /\ count is_recovery (trace w) = 0%nat
    /\ count is_escalation (trace w) = 0%nat
    /\ count is_alert (trace w) = 0%nat.
Proof.
  paths; try off_path; count_events; auto.
Qed.

Lemma healthy_run_leaves_gateway_alone_witness :
  rc (always send_ok 0%nat) = 0
  /\ count is_recovery
       (trace (snd (run (Watchdog.main with_twilio stamp 1700000300
                           (always send_ok) "4242")
                        (boot (Some 1700000000))))) = 0%nat.
Proof.
  assert (E : rc (always send_ok 0%nat) = 0) by reflexivity.
  split; [exact E |].
  exact (proj1 (proj2
    (healthy_run_leaves_gateway_alone with_twilio stamp 1700000300
       (always send_ok) "4242" (Some 1700000000) E))).
Defined.

(** X2.  An alert goes out exactly when both sends fail and either a
    Twilio variable is empty or the 64-bit difference between the clock
    and the stored timestamp is at least the cooldown. *)
Theorem alert_exactly_when :
  forall env ts now send pg file,
    let w := snd (run (Watchdog.main env ts now send pg) (boot file)) in
    dispatched w
    <-> (both_fail send
         /\ (Watchdog.twilio_unconfigured env = true
             \/ Watchdog.cooldown <= sub64 now (last_alert_of file))).
Proof.
  intros env ts now send pg file w; subst w.
  destruct file as [v|]; unfold both_fail; cbn [last_alert_of];
    run_script; repeat branch; count_events;
    repeat match goal with
           | H : (_ =? _) = true |- _ => apply Z.eqb_eq in H
           | H : (_ =? _) = false |- _ => apply Z.eqb_neq in H
           | H : (_ <? _) = true |- _ => apply Z.ltb_lt in H
           | H : (_ <? _) = false |- _ => apply Z.ltb_ge in H
           end;
    split; intros; repeat split; auto; try lia; try tauto;
    try (exfalso;
         match goal with
         | H : _ /\ _ |- _ => destruct H as [[? ?] [? | ?]]
         end; first [congruence | lia]).
Qed.

(** X3.  Whenever an alert goes out the run exits 1 and the state file
    holds [now]; a run sends at most one mail, places a call only together
    with a mail, and writes the state file at most once. *)
Theorem alert_is_recorded :
  forall env ts now send pg file,
    let r := run (Watchdog.main env ts now send pg) (boot file) in
    (dispatched (snd r) -> fst r = 1 /\ state_file (snd r) = Some now)
    /\ (count is_call (trace (snd r)) <= count is_email (trace (snd r)) <= 1)%nat
    /\ (count is_state_write (trace (snd r)) <= 1)%nat.
Proof.
  intros env ts now send pg file r; subst r.
  run_script; repeat branch; count_events; repeat split; auto; lia.
Qed.

Lemma alert_is_recorded_witness :
  dispatched
    (snd (run (Watchdog.main with_twilio stamp 1700003700 (always send_err)
                 "4242")
              (boot (Some 1700000000))))
  /\ state_file
       (snd (run (Watchdog.main with_twilio stamp 1700003700
                    (always send_err) "4242")
                 (boot (Some 1700000000))))
     = Some 1700003700.
Proof.
  assert (D : dispatched
    (snd (run (Watchdog.main with_twilio stamp 1700003700 (always send_err)
                 "4242")
              (boot (Some 1700000000)))))
    by (vm_compute; apply le_S, le_n).
  split; [exact D |].
  exact (proj2 (proj1
    (alert_is_recorded with_twilio stamp 1700003700 (always send_err) "4242"
       (Some 1700000000)) D)).
Defined.

(** X4.  With Twilio configured, a failing run less than one cooldown
    after the stored timestamp logs that the cooldown is active, with the
    elapsed seconds, sends nothing, neither call nor mail, does not write
    the state file, and still exits 1. *)
Theorem cooldown_run_is_silent :
  forall env ts now send pg T,
    Watchdog.twilio_unconfigured env = false ->
    both_fail send ->
    0 <= now - T < Watchdog.cooldown ->
    let r := run (Watchdog.main env ts now send pg) (boot (Some T)) in
    fst r = 1
    /\ count is_alert (trace (snd r)) = 0%nat
    /\ count is_state_write (trace (snd r)) = 0%nat
    /\ state_file (snd r) = Some T
    /\ logged (Watchdog.LOG_PREFIX ts ++ " "
               ++ "Alert cooldown active (" ++ show_Z (now - T) ++ "s < "
               ++ show_Z Watchdog.cooldown ++ "s), skipping")
              (trace (snd r)).
Proof.
  intros env ts now send pg T Ht [N0 N1] Hwin r; subst r.
  assert (Hs : sub64 now T = now - T)
    by (apply sub64_exact; unfold Watchdog.cooldown in Hwin; lia).
  assert (Hc : (sub64 now T <? Watchdog.cooldown) = true)
    by (rewrite Hs; apply Z.ltb_lt; lia).
  rewrite <- Hs.
  run_script; repeat branch; try off_path; count_events; repeat split; auto.
  cbv [logged In]; auto 30.
Qed.

Lemma cooldown_run_is_silent_witness :
  Watchdog.twilio_unconfigured with_twilio = false
  /\ both_fail (always send_err)
  /\ 0 <= 1700001800 - 1700000000 < Watchdog.cooldown
  /\ state_file
       (snd (run (Watchdog.main with_twilio stamp 1700001800
                    (always send_err) "4242")
                 (boot (Some 1700000000))))
     = Some 1700000000.
Proof.
  assert (Ht : Watchdog.twilio_unconfigured with_twilio = false)
    by reflexivity.
  assert (N0 : rc (always send_err 0%nat) <> 0) by (vm_compute; discriminate).
  assert (N1 : rc (always send_err 1%nat) <> 0) by (vm_compute; discriminate).
  assert (Hw : 0 <= 1700001800 - 1700000000 < Watchdog.cooldown)
    by (unfold Watchdog.cooldown; lia).
  split; [exact Ht | split; [exact (conj N0 N1) | split; [exact Hw |]]].
  exact (proj1 (proj2 (proj2 (proj2
    (cooldown_run_is_silent with_twilio stamp 1700001800
       (always send_err) "4242" 1700000000 Ht (conj N0 N1) Hw))))).
Defined.

(** X5.  The netrc file with the Twilio credentials is written only for a
    call and removed in the same run: in every run the numbers of netrc
    writes, of calls and of netrc removals are equal, and no call comes
    before escalation. *)
Theorem netrc_never_left_behind :
  forall env ts now send pg file,
    let t := trace (snd (run (Watchdog.main env ts now send pg) (boot file))) in
    count is_netrc_write t = count is_call t
    /\ count is_netrc_remove t = count is_call t
    /\ count is_netrc_write (before is_call t) = count is_call t
    /\ count is_netrc_remove (before is_call t) = 0%nat.
Proof.
  intros env ts now send pg file t; subst t.
  run_script; repeat branch; count_events; auto.
Qed.

(** X8.  Order within a run: exactly one probe precedes the restart of
    the gateway; nothing is probed or restarted once [send_alert] has been
    entered; no alert goes out and the state file is not written to [now]
    before that. *)
Theorem watchdog_event_order :
  forall env ts now send pg file,
    let t := trace (snd (run (Watchdog.main env ts now send pg) (boot file))) in
    count is_probe (before is_recovery t) = 1%nat
    /\ count is_probe (before is_escalation t) = count is_probe t
    /\ count is_recovery (before is_escalation t) = count is_recovery t
    /\ count is_alert (before is_escalation t) = 0%nat
    /\ (count is_escalation t = 1%nat ->
        count is_probe (before is_escalation t) = 2%nat
        /\ count is_recovery (before is_escalation t) = 1%nat).
Proof.
  intros env ts now send pg file t; subst t.
  run_script; repeat branch; count_events; repeat split; auto;
    intros H; discriminate H.
Qed.

Lemma watchdog_event_order_witness :
  count is_escalation
    (trace (snd (run (Watchdog.main no_twilio stamp 1700003700
                        (always send_err) "4242")
                     (boot None)))) = 1%nat
  /\ count is_probe
       (before is_escalation
          (trace (snd (run (Watchdog.main no_twilio stamp 1700003700
                              (always send_err) "4242")
                           (boot None))))) = 2%nat.
Proof.
  assert (E : count is_escalation
    (trace (snd (run (Watchdog.main no_twilio stamp 1700003700
                        (always send_err) "4242")
                     (boot None)))) = 1%nat) by reflexivity.
  split; [exact E |].
  exact (proj1 (proj2 (proj2 (proj2 (proj2
    (watchdog_event_order no_twilio stamp 1700003700 (always send_err) "4242"
       None)))) E)).
Defined.

(** ** Successive runs of the watchdog *)

Lemma outage_tick_step env t file :
  Watchdog.twilio_unconfigured env = false ->
  outage t ->
  0 <= last_alert_of file < 2 ^ 62 ->
  let r := watchdog_tick env t file in
  (Watchdog.cooldown <= tick_now t - last_alert_of file ->
   alerted r = true /\ state_file (snd r) = Some (tick_now t))
  /\ (tick_now t - last_alert_of file < Watchdog.cooldown ->
      alerted r = false
      /\ last_alert_of (state_file (snd r)) = last_alert_of file).
Proof.
  intros Ht [[N0 N1] Hnow] Hlast r; subst r.
  destruct t as [ts now send pg]; cbn [tick_now tick_send] in *.
  assert (Hs : sub64 now (last_alert_of file) = now - last_alert_of file)
    by (apply sub64_exact; lia).
  unfold watchdog_tick; cbn [tick_stamp tick_now tick_send tick_pgrep].
  destruct file as [v|]; cbn [last_alert_of] in *;
    (split; intros Hgap;
     [ assert (Hc : (sub64 now _ <? Watchdog.cooldown) = false)
         by (rewrite Hs; apply Z.ltb_ge; exact Hgap)
     | assert (Hc : (sub64 now _ <? Watchdog.cooldown) = true)
         by (rewrite Hs; apply Z.ltb_lt; exact Hgap) ]);
    run_script; repeat branch; try off_path; count_events; auto.
Qed.

(** X6.  A sustained outage with Twilio configured: over any number of
    successive failing runs, each alert comes at least one cooldown
    (3600 s) after the previous one, and after the timestamp the first run
    found. *)
Theorem alerts_spaced_by_cooldown :
  forall env ticks file,
    Watchdog.twilio_unconfigured env = false ->
    Forall outage ticks ->
    0 <= last_alert_of file < 2 ^ 62 ->
    spaced (last_alert_of file) (alert_times env ticks file).
Proof.
  intros env ticks. induction ticks as [|t rest IH]; intros file Ht Hall Hlast.
  - exact I.
  - inversion Hall as [|? ? Ho Hrest]; subst.
    cbn [alert_times].
    destruct (outage_tick_step env t file Ht Ho Hlast) as [Hyes Hno].
    destruct (Z_lt_ge_dec (tick_now t - last_alert_of file) Watchdog.cooldown)
      as [Hlt | Hge].
    + destruct (Hno Hlt) as [Ha Hs]. rewrite Ha. cbn [app].
      rewrite <- Hs. apply IH; auto. rewrite Hs. exact Hlast.
    + assert (Hge' : Watchdog.cooldown <= tick_now t - last_alert_of file)
        by lia.
      destruct (Hyes Hge') as [Ha Hs]. rewrite Ha, Hs. cbn [app spaced].
      split; [exact Hge'|].
      apply (IH (Some (tick_now t))); auto.
      cbn [last_alert_of]. destruct Ho as [_ Hr]. exact Hr.
Qed.

Lemma alerts_spaced_by_cooldown_witness :
  Watchdog.twilio_unconfigured with_twilio = false
  /\ spaced 1700000000
       (alert_times with_twilio
          [outage_at 1700003000; outage_at 1700003600; outage_at 1700003900;
           outage_at 1700007200]
          (Some 1700000000)).
Proof.
  assert (Ht : Watchdog.twilio_unconfigured with_twilio = false)
    by reflexivity.
  assert (N0 : rc (always send_err 0%nat) <> 0) by (vm_compute; discriminate).
  assert (N1 : rc (always send_err 1%nat) <> 0) by (vm_compute; discriminate).
  assert (O : forall now, 0 <= now < 2 ^ 62 -> outage (outage_at now))
    by (intros now H; exact (conj (conj N0 N1) H)).
  split; [exact Ht |].
  apply (alerts_spaced_by_cooldown with_twilio
           [outage_at 1700003000; outage_at 1700003600; outage_at 1700003900;
            outage_at 1700007200]
           (Some 1700000000) Ht).
  - repeat (apply Forall_cons; [apply O; lia |]). apply Forall_nil.
  - cbn [last_alert_of]. lia.
Defined.

(** X7.  A run that exits 0 re-arms the alert: the next run in which both
    sends fail sends the alert, however soon after an earlier alert,
    provided its clock reads at least one cooldown past the epoch. *)
Theorem success_rearms_alert :
  forall env ts1 now1 send1 pg1 file ts2 now2 send2 pg2,
    let r1 := run (Watchdog.main env ts1 now1 send1 pg1) (boot file) in
    let r2 := run (Watchdog.main env ts2 now2 send2 pg2)
                  (boot (state_file (snd r1))) in
    fst r1 = 0 ->
    both_fail send2 ->
    Watchdog.cooldown <= now2 < 2 ^ 63 ->
    dispatched (snd r2) /\ state_file (snd r2) = Some now2.
Proof.
  intros env ts1 now1 send1 pg1 file ts2 now2 send2 pg2 r1 r2.
  subst r1 r2. intros H1 [N0 N1] Hr. revert H1.
  assert (Hc : (sub64 now2 0 <? Watchdog.cooldown) = false).
  { unfold Watchdog.cooldown in *.
    rewrite sub64_exact by lia. apply Z.ltb_ge. lia. }
  run_script; repeat branch; try off_path; count_events;
    intros H1; try discriminate H1; split; auto; lia.
Qed.

Lemma success_rearms_alert_witness :
  fst (run (Watchdog.main with_twilio stamp 1700000300 (always send_ok)
              "4242")
           (boot (Some 1700000000))) = 0
  /\ both_fail (always send_err)
  /\ Watchdog.cooldown <= 1700000600 < 2 ^ 63
  /\ dispatched
       (snd (run (Watchdog.main with_twilio stamp 1700000600
                    (always send_err) "4242")
                 (boot (state_file
                    (snd (run (Watchdog.main with_twilio stamp 1700000300
                                 (always send_ok) "4242")
                              (boot (Some 1700000000)))))))).
Proof.
  assert (H1 : fst (run (Watchdog.main with_twilio stamp 1700000300
                           (always send_ok) "4242")
                        (boot (Some 1700000000))) = 0) by reflexivity.
  assert (N0 : rc (always send_err 0%nat) <> 0) by (vm_compute; discriminate).
  assert (N1 : rc (always send_err 1%nat) <> 0) by (vm_compute; discriminate).
  assert (Hr : Watchdog.cooldown <= 1700000600 < 2 ^ 63)
    by (unfold Watchdog.cooldown; lia).
  split; [exact H1 | split; [exact (conj N0 N1) | split; [exact Hr |]]].
  exact (proj1
    (success_rearms_alert with_twilio stamp 1700000300 (always send_ok) "4242"
       (Some 1700000000) stamp 1700000600 (always send_err) "4242"
       H1 (conj N0 N1) Hr)).
Defined.

(** ** Further properties of whatsapp-healthcheck.sh *)

(** X9.  [whatsapp-healthcheck.sh] exits 0 exactly when one of its (up to
    three) status checks finds WhatsApp connected, and 1 otherwise; it
    never escalates, never sends an alert, and never touches the
    watchdog's state file. *)
Theorem healthcheck_outcome :
  forall ts chan file,
    let r := run (Healthcheck.main ts chan) (boot file) in
    fst r = (if healthy_status (chan 0%nat) || healthy_status (chan 1%nat)
                || healthy_status (chan 2%nat)
             then 0 else 1)
    /\ state_file (snd r) = file
    /\ count is_state_write (trace (snd r)) = 0%nat
    /\ count is_escalation (trace (snd r)) = 0%nat
    /\ count is_alert (trace (snd r)) = 0%nat.
Proof.
  intros ts chan file r; subst r.
  unfold healthy_status; cbv zeta.
  run_script; repeat branch; count_events; cbn [andb orb negb];
    repeat split; auto; closed_test.
Qed.

(** X10.  In both scripts every restart of the gateway is followed by
    exactly one more probe: a run issues one probe more than it performs
    restarts, and in [whatsapp-healthcheck.sh] the number of restarts is
    the number of checks that failed before the first healthy one, capped
    at two. *)
Theorem one_probe_per_restart :
  forall env ts now send pg chan file,
    let t1 := trace (snd (run (Watchdog.main env ts now send pg) (boot file))) in
    let t2 := trace (snd (run (Healthcheck.main ts chan) (boot file))) in
    count is_probe t1 = S (count is_recovery t1)
    /\ count is_probe t2 = S (count is_recovery t2)
    /\ count is_recovery t2
       = (if healthy_status (chan 0%nat) then 0
          else if healthy_status (chan 1%nat) then 1 else 2)%nat.
Proof.
  intros env ts now send pg chan file t1 t2; subst t1 t2.
  unfold healthy_status; cbv zeta.
  split; [|split]; run_script; repeat branch; count_events;
    cbn [andb orb negb]; auto; closed_test.
Qed.

(** ** What a run of health-check.sh adds up to *)

Lemma count_app p (a b : list event) :
  count p (a ++ b) = (count p a + count p b)%nat.
Proof. unfold count. now rewrite filter_app, length_app. Qed.

Lemma bump_add a b x : bump b (bump a x) = bump (a + b) x.
Proof.
  unfold bump. rewrite Nat.add_comm. now rewrite Nat.iter_add.
Qed.

Lemma bump_small n x :
  0 <= x -> x + Z.of_nat n < 2 ^ 63 -> bump n x = x + Z.of_nat n.
Proof.
  induction n as [|n IH]; intros H0 Hn.
  - cbn. lia.
  - unfold bump in *. rewrite Nat.iter_succ, IH by lia.
    rewrite wrap64_exact; lia.
Qed.

Lemma yields_ret {A} (a : A) : yields (ret a) effect_zero.
Proof.
  intros w. exists a, w, []. cbn. rewrite app_nil_r. repeat split.
Qed.

Lemma yields_emit e : yields (emit e) (event_effect e).
Proof.
  intros w. exists tt, (with_trace (trace w ++ [e]) w), [e].
  repeat split.
Qed.

Lemma yields_bind {A B} (m : sh A) (k : A -> sh B) E1 E2 :
  yields m E1 -> (forall a, yields (k a) E2) ->
  yields (bind m k) (effect_add E1 E2).
Proof.
  intros Hm Hk w.
  destruct (Hm w) as (a & w1 & e1 & R1 & T1 & M1 & C1 & U1 & G1 & F1 & W1 & S1 & P1).
  destruct (Hk a w1) as (b & w2 & e2 & R2 & T2 & M2 & C2 & U2 & G2 & F2 & W2 & S2 & P2).
  exists b, w2, (e1 ++ e2)%list.
  unfold bind. rewrite R1, R2, T2, T1, F2, F1, W2, W1, S2, S1, P2, P1.
  rewrite !count_app, M1, M2, C1, C2, U1, U2, G1, G2, !bump_add, app_assoc.
  repeat split.
Qed.

Lemma yields_call body E : yields body E -> yields (call body) E.
Proof.
  intros Hb w.
  destruct (Hb w) as (a & w1 & e1 & R1 & rest).
  exists 0, w1, e1. unfold call. rewrite R1. auto.
Qed.

Lemma yields_eq {A} (m : sh A) E E' : yields m E -> E = E' -> yields m E'.
Proof. now intros H <-. Qed.

Lemma effect_ext (E E' : effect) :
  mails E = mails E' /\ calls E = calls E'
  /\ unit_restarts E = unit_restarts E'
  /\ gateway_restarts E = gateway_restarts E'
  /\ fails E = fails E' /\ warns E = warns E' ->
  E = E'.
Proof.
  destruct E, E'; cbn. intros (-> & -> & -> & -> & -> & ->). reflexivity.
Qed.

Lemma yields_log ts msg : yields (ToolkitHealth.log ts msg) effect_zero.
Proof. apply (yields_emit (Stdout _)). Qed.

Lemma yields_warn ts msg :
  yields (ToolkitHealth.warn ts msg) (mk_effect 0 0 0 0 0 1).
Proof.
  intros w. eexists tt, _, [_].
  unfold ToolkitHealth.warn, bind, echo, emit. cbn.
  repeat split.
Qed.

Lemma yields_fail ts msg :
  yields (ToolkitHealth.fail ts msg) (mk_effect 0 0 0 0 1 0).
Proof.
  intros w. eexists tt, _, [_].
  unfold ToolkitHealth.fail, bind, echo, emit. cbn.
  repeat split.
Qed.

Ltac yield_step :=
  lazymatch goal with
  | |- yields (bind _ _) _ => eapply yields_bind; [ | intros ? ]
  | |- yields (ToolkitHealth.log _ _) _ => apply yields_log
  | |- yields (ToolkitHealth.warn _ _) _ => apply yields_warn
  | |- yields (ToolkitHealth.fail _ _) _ => apply yields_fail
  | |- yields (emit _) _ => apply yields_emit
  | |- yields (ret _) _ => apply yields_ret
  | |- yields (call _) _ => apply yields_call
  end.

Lemma yields_send_alert env ts subject body :
  yields (ToolkitHealth.send_alert env ts subject body)
         (mk_effect 1 0 0 0 0 0).
Proof.
  unfold ToolkitHealth.send_alert.
  eapply yields_eq; [repeat yield_step | reflexivity].
Qed.

Ltac yield_step' :=
  lazymatch goal with
  | |- yields (ToolkitHealth.send_alert _ _ _ _) _ => apply yields_send_alert
  | |- _ => yield_step
  end.

Ltac yield_all :=
  cbn [negb andb orb];
  eapply yields_eq; [repeat yield_step' | reflexivity].

Lemma yields_gateway_process_check env ts inp :
  yields (ToolkitHealth.gateway_process_check env ts inp)
    (let gw1 := gateway_up (ToolkitHealth.is_active_1 inp) in
     let gw2 := gateway_up (ToolkitHealth.is_active_2 inp) in
     mk_effect (bit (negb gw1 && negb gw2)) 0 (bit (negb gw1)) 0
               (bit (negb gw1) + bit (negb gw1 && negb gw2)) 0).
Proof.
  unfold ToolkitHealth.gateway_process_check, gateway_up; cbv zeta.
  destruct (String.eqb (ToolkitHealth.gw_status (ToolkitHealth.is_active_1 inp)) "active");
    destruct (String.eqb (ToolkitHealth.gw_status (ToolkitHealth.is_active_2 inp)) "active");
    yield_all.
Qed.

Lemma yields_gateway_rpc_probe ts inp :
  yields (ToolkitHealth.gateway_rpc_probe ts inp)
    (let rpc := rpc_up (ToolkitHealth.health_output inp) in
     mk_effect 0 0 0 (bit (negb rpc)) (bit (negb rpc)) 0).
Proof.
  unfold ToolkitHealth.gateway_rpc_probe, rpc_up; cbv zeta.
  destruct (grep_qi ["linked"] (capture (ToolkitHealth.health_output inp)));
    yield_all.
Qed.

Lemma yields_whatsapp_connection_check env ts inp :
  yields (ToolkitHealth.whatsapp_connection_check env ts inp)
    (let wa1 := whatsapp_up (ToolkitHealth.wa_output inp) in
     let linked := rpc_up (ToolkitHealth.wa_output inp) in
     let wa2 := whatsapp_up (ToolkitHealth.wa_output2 inp) in
     mk_effect (bit (negb wa1 && negb wa2)) 0 0 (bit (negb wa1))
               (bit (negb wa1 && negb linked) + bit (negb wa1 && negb wa2))
               (bit (negb wa1 && linked))).
Proof.
  unfold ToolkitHealth.whatsapp_connection_check, whatsapp_up, rpc_up;
    cbv zeta.
  destruct (grep_qi ["linked"; "running"; "connected"]
              (capture (ToolkitHealth.wa_output inp)));
    destruct (grep_qi ["linked"] (capture (ToolkitHealth.wa_output inp)));
    destruct (grep_qi ["linked"; "running"; "connected"]
                (capture (ToolkitHealth.wa_output2 inp)));
    yield_all.
Qed.

Lemma yields_agent_heartbeat_check ts inp :
  yields (ToolkitHealth.agent_heartbeat_check ts inp)
    (mk_effect 0 0 0 0 0
       (bit (heartbeat_disabled (ToolkitHealth.status_output inp)))).
Proof.
  unfold ToolkitHealth.agent_heartbeat_check, heartbeat_disabled; cbv zeta.
  destruct (existsb _ _); yield_all.
Qed.

Lemma yields_disk_memory_check env ts inp :
  yields (ToolkitHealth.disk_memory_check env ts inp)
    (let disk := ToolkitHealth.disk_pct inp >=? 90 in
     let mem := ToolkitHealth.mem_pct inp >=? 90 in
     mk_effect (bit disk) 0 0 0 0 (bit disk + bit mem)).
Proof.
  unfold ToolkitHealth.disk_memory_check; cbv zeta.
  destruct (ToolkitHealth.disk_pct inp >=? 90);
    destruct (ToolkitHealth.mem_pct inp >=? 90); yield_all.
Qed.

Lemma yields_camofox_browser_check ts inp :
  yields (ToolkitHealth.camofox_browser_check ts inp)
    (let cam1 := camofox_up (ToolkitHealth.camofox_health inp) in
     let cam2 := camofox_up (ToolkitHealth.camofox_health2 inp) in
     mk_effect 0 0 0 0 (bit (negb cam1 && negb cam2)) (bit (negb cam1))).
Proof.
  unfold ToolkitHealth.camofox_browser_check, camofox_up; cbv zeta.
  destruct (contains _ (capture (ToolkitHealth.camofox_health inp)));
    destruct (contains _ (capture (ToolkitHealth.camofox_health2 inp)));
    yield_all.
Qed.

Lemma yields_log_size_loop ts files :
  yields (ToolkitHealth.log_size_loop ts files)
    (mk_effect 0 0 0 0 0 (List.length (List.filter big files))).
Proof.
  induction files as [|[logfile size] rest IH];
    cbn [ToolkitHealth.log_size_loop List.filter].
  - apply yields_ret.
  - change (big (logfile, size)) with (size >=? 500).
    destruct (size >=? 500);
      (eapply yields_eq;
       [ eapply yields_bind; [apply yields_emit | intros ?];
         eapply yields_bind; [yield_step | intros ?; exact IH]
       | reflexivity ]).
Qed.

Lemma yields_log_size_check ts inp :
  yields (ToolkitHealth.log_size_check ts inp)
    (mk_effect 0 0 0 0 0
       (List.length (List.filter big (ToolkitHealth.log_files inp)))).
Proof.
  unfold ToolkitHealth.log_size_check.
  eapply yields_eq;
    [ eapply yields_bind; [apply yields_log | intros ?];
      eapply yields_bind; [apply yields_log_size_loop | intros ?];
      apply yields_log
    | apply effect_ext;
      cbv beta iota zeta delta
        [effect_add effect_zero mails calls unit_restarts gateway_restarts
         fails warns];
      repeat split; lia ].
Qed.

(** The script up to its summary. *)
Lemma yields_checks env ts inp :
  yields (checks env ts inp) (toolkit_effect inp).
Proof.
  unfold checks.
  eapply yields_eq.
  - repeat lazymatch goal with
         | |- yields (bind _ _) _ => eapply yields_bind; [ | intros ? ]
         | |- yields (ToolkitHealth.log _ _) _ => apply yields_log
         | |- yields (ToolkitHealth.gateway_process_check _ _ _) _ =>
             apply yields_gateway_process_check
         | |- yields (ToolkitHealth.gateway_rpc_probe _ _) _ =>
             apply yields_gateway_rpc_probe
         | |- yields (ToolkitHealth.whatsapp_connection_check _ _ _) _ =>
             apply yields_whatsapp_connection_check
         | |- yields (ToolkitHealth.agent_heartbeat_check _ _) _ =>
             apply yields_agent_heartbeat_check
         | |- yields (ToolkitHealth.disk_memory_check _ _ _) _ =>
             apply yields_disk_memory_check
         | |- yields (ToolkitHealth.camofox_browser_check _ _) _ =>
             apply yields_camofox_browser_check
         | |- yields (ToolkitHealth.log_size_check _ _) _ =>
             apply yields_log_size_check
         end.
  - apply effect_ext;
      cbv beta iota zeta delta
        [toolkit_effect effect_add effect_zero mails calls unit_restarts
         gateway_restarts fails warns];
      repeat split; lia.
Qed.

Lemma sh_eq_refl {A} (m : sh A) : sh_eq m m.
Proof. intros w. reflexivity. Qed.

Lemma sh_eq_trans {A} (m1 m2 m3 : sh A) :
  sh_eq m1 m2 -> sh_eq m2 m3 -> sh_eq m1 m3.
Proof. intros H1 H2 w. now rewrite H1. Qed.

Lemma bind_assoc {A B C} (m : sh A) (k : A -> sh B) (h : B -> sh C) :
  sh_eq (bind (bind m k) h) (bind m (fun x => bind (k x) h)).
Proof.
  intros w. unfold bind. destruct (m w) as [[a | st | st] w1]; reflexivity.
Qed.

Lemma bind_cong_r {A B} (m : sh A) (k k' : A -> sh B) :
  (forall a, sh_eq (k a) (k' a)) -> sh_eq (bind m k) (bind m k').
Proof.
  intros H w. unfold bind. destruct (m w) as [[a | st | st] w1]; auto.
  apply H.
Qed.

Ltac reassoc :=
  lazymatch goal with
  | |- sh_eq (bind (bind _ _) _) _ =>
      eapply sh_eq_trans;
      [ apply bind_assoc | apply bind_cong_r; intros ?; reassoc ]
  | |- _ => apply sh_eq_refl
  end.

Lemma main_is_checks_then_summary env ts inp :
  sh_eq (bind (checks env ts inp) (fun _ => ToolkitHealth.summary ts))
        (ToolkitHealth.main env ts inp).
Proof.
  unfold checks, ToolkitHealth.main. reassoc.
Qed.

Lemma summary_prints ts w :
  ToolkitHealth.summary ts w
  = (Done tt,
     with_trace (trace w ++ [Stdout (summary_line ts (FAILURES w) (WARNINGS w));
                             Stdout ("[" ++ ts ++ "] " ++ "")]) w).
Proof.
  unfold ToolkitHealth.summary, summary_line, bind, ToolkitHealth.log, echo,
    emit, with_trace.
  destruct ((FAILURES w =? 0) && (WARNINGS w =? 0));
    cbn [trace state_file probes FAILURES WARNINGS];
    rewrite <- app_assoc; reflexivity.
Qed.

Lemma toolkit_run env ts inp file :
  exists w (evs : list event),
    run (ToolkitHealth.main env ts inp) (boot file) = (0, w)
    /\ trace w = (evs ++ [Stdout (summary_line ts (FAILURES w) (WARNINGS w));
                          Stdout ("[" ++ ts ++ "] " ++ "")])%list
    /\ count is_email evs = mails (toolkit_effect inp)
    /\ count is_call evs = 0%nat
    /\ count is_service_restart evs = unit_restarts (toolkit_effect inp)
    /\ count is_gateway_restart evs = gateway_restarts (toolkit_effect inp)
    /\ FAILURES w = bump (fails (toolkit_effect inp)) 0
    /\ WARNINGS w = bump (warns (toolkit_effect inp)) 0
    /\ state_file w = file.
Proof.
  destruct (yields_checks env ts inp (boot file))
    as (a & w1 & evs & R & T & M & C & U & G & F & W & S & P).
  exists (with_trace (trace w1 ++ [Stdout (summary_line ts (FAILURES w1) (WARNINGS w1));
                                 Stdout ("[" ++ ts ++ "] " ++ "")]) w1), evs.
  unfold run.
  rewrite <- (main_is_checks_then_summary env ts inp (boot file)).
  unfold bind at 1. rewrite R, summary_prints.
  cbn [trace state_file FAILURES WARNINGS with_trace boot] in *.
  rewrite T. repeat split; auto.
Qed.

Lemma bit_le1 b : (bit b <= 1)%nat.
Proof. destruct b; cbn; lia. Qed.

Ltac bound_bits :=
  repeat match goal with
         | |- context [bit ?b] =>
             lazymatch goal with
             | H : (bit b <= 1)%nat |- _ => fail
             | _ => pose proof (bit_le1 b)
             end
         end.

Lemma append_not_empty s t : is_empty t = false -> is_empty (s ++ t) = false.
Proof. destruct s; auto. Qed.

Lemma capture_keeps_word s :
  capture (s ++ "inactive" ++ String newline EmptyString) = s ++ "inactive".
Proof.
  induction s as [|c s IH].
  - reflexivity.
  - cbn [String.append] in *. cbn [capture]. rewrite IH.
    rewrite append_not_empty by reflexivity.
    rewrite andb_false_r. reflexivity.
Qed.

Lemma length_append (s t : string) :
  String.length (s ++ t) = (String.length s + String.length t)%nat.
Proof. induction s as [|c s IH]; cbn; auto. Qed.

Lemma failed_is_active_reads_inactive answer :
  rc answer <> 0 -> gateway_up answer = false.
Proof.
  intros N. unfold gateway_up, ToolkitHealth.gw_status.
  apply Z.eqb_neq in N. rewrite N.
  rewrite capture_keeps_word. apply String.eqb_neq. intros E.
  apply (f_equal String.length) in E. rewrite length_append in E.
  cbn in E. lia.
Qed.

(** X11.  When [systemctl is-active] exits non-zero, whatever it printed,
    [health-check.sh] takes the gateway as not running: it restarts the
    unit once and counts at least one failure. *)
Theorem failed_is_active_restarts_unit :
  forall env ts inp file,
    rc (ToolkitHealth.is_active_1 inp) <> 0 ->
    let r := run (ToolkitHealth.main env ts inp) (boot file) in
    count is_service_restart (trace (snd r)) = 1%nat
    /\ (1 <= FAILURES (snd r))%Z.
Proof.
  intros env ts inp file N r; subst r.
  destruct (toolkit_run env ts inp file)
    as (w & evs & R & T & M & C & U & G & F & W & S).
  rewrite R; cbn [snd]. rewrite T, count_app, U, F.
  unfold toolkit_effect; cbv zeta; cbn [unit_restarts fails].
  rewrite (failed_is_active_reads_inactive _ N). cbn [negb bit andb].
  split; [reflexivity|].
  rewrite bump_small.
  all: bound_bits; lia.
Qed.

Lemma filter_length_le {A} (p : A -> bool) (l : list A) :
  (List.length (List.filter p l) <= List.length l)%nat.
Proof. induction l as [|x l IH]; cbn; [lia | destruct (p x); cbn; lia]. Qed.

(** X13.  [health-check.sh] mails one alert for each of: the gateway unit
    still not active after its restart, WhatsApp still not linked, running
    and connected after the gateway restart, and disk usage of 90% or
    more; so at most three per run.  It never places a call and never
    touches the watchdog's state file: these mails have no cooldown. *)
Theorem toolkit_alert_mails :
  forall env ts inp file,
    let r := run (ToolkitHealth.main env ts inp) (boot file) in
    let gw1 := gateway_up (ToolkitHealth.is_active_1 inp) in
    let gw2 := gateway_up (ToolkitHealth.is_active_2 inp) in
    let wa1 := whatsapp_up (ToolkitHealth.wa_output inp) in
    let wa2 := whatsapp_up (ToolkitHealth.wa_output2 inp) in
    let disk := ToolkitHealth.disk_pct inp >=? 90 in
    count is_email (trace (snd r))
    = (bit (negb gw1 && negb gw2) + bit (negb wa1 && negb wa2) + bit disk)%nat
    /\ (count is_email (trace (snd r)) <= 3)%nat
    /\ count is_call (trace (snd r)) = 0%nat
    /\ state_file (snd r) = file.
Proof.
  intros env ts inp file r gw1 gw2 wa1 wa2 disk; subst r gw1 gw2 wa1 wa2 disk.
  destruct (toolkit_run env ts inp file)
    as (w & evs & R & T & M & C & U & G & F & W & S).
  rewrite R; cbn [snd]. rewrite T, !count_app, M, C.
  unfold toolkit_effect; cbv zeta; cbn [mails].
  change (count is_email [_; _]) with 0%nat.
  change (count is_call [_; _]) with 0%nat.
  repeat split; auto; bound_bits; lia.
Qed.

(** X14.  [health-check.sh] restarts the systemd unit exactly when its
    first [is-active] test fails, and runs [openclaw gateway restart] once
    for a failed RPC probe and once more for a WhatsApp channel that is
    not linked, running and connected: at most three restarts per run. *)
Theorem toolkit_restarts :
  forall env ts inp file,
    let r := run (ToolkitHealth.main env ts inp) (boot file) in
    count is_service_restart (trace (snd r))
    = bit (negb (gateway_up (ToolkitHealth.is_active_1 inp)))
    /\ count is_gateway_restart (trace (snd r))
       = (bit (negb (rpc_up (ToolkitHealth.health_output inp)))
          + bit (negb (whatsapp_up (ToolkitHealth.wa_output inp))))%nat.
Proof.
  intros env ts inp file r; subst r.
  destruct (toolkit_run env ts inp file)
    as (w & evs & R & T & M & C & U & G & F & W & S).
  rewrite R; cbn [snd]. rewrite T, !count_app, U, G.
  unfold toolkit_effect; cbv zeta; cbn [unit_restarts gateway_restarts].
  change (count is_service_restart [_; _]) with 0%nat.
  change (count is_gateway_restart [_; _]) with 0%nat.
  split; lia.
Qed.

(** X15.  At the summary the two counters of [health-check.sh] hold the
    number of [fail] and of [warn] calls the answers lead to (at most 6
    failures), the run ends with the summary line for these two numbers
    followed by an empty log line, and the exit status is 0. *)
Theorem toolkit_summary_counts :
  forall env ts inp file,
    Z.of_nat (List.length (ToolkitHealth.log_files inp)) < 2 ^ 62 ->
    let r := run (ToolkitHealth.main env ts inp) (boot file) in
    let F := Z.of_nat (fails (toolkit_effect inp)) in
    let W := Z.of_nat (warns (toolkit_effect inp)) in
    fst r = 0
    /\ FAILURES (snd r) = F
    /\ WARNINGS (snd r) = W
    /\ 0 <= F <= 6
    /\ exists evs,
         trace (snd r)
         = (evs ++ [Stdout (summary_line ts F W);
                    Stdout ("[" ++ ts ++ "] " ++ "")])%list.
Proof.
  intros env ts inp file Hlen r F W; subst r F W.
  destruct (toolkit_run env ts inp file)
    as (w & evs & R & T & M & C & U & G & F & W & S).
  rewrite R; cbn [fst snd].
  assert (HF : (fails (toolkit_effect inp) <= 6)%nat).
  { unfold toolkit_effect; cbv zeta; cbn [fails]. bound_bits; lia. }
  assert (HW : (warns (toolkit_effect inp)
                <= 5 + List.length (ToolkitHealth.log_files inp))%nat).
  { unfold toolkit_effect; cbv zeta; cbn [warns].
    pose proof (filter_length_le big (ToolkitHealth.log_files inp)).
    bound_bits; lia. }
  rewrite bump_small in F by lia.
  rewrite bump_small in W by lia.
  rewrite Z.add_0_l in F, W.
  repeat split; try lia; auto.
  exists evs. rewrite T, F, W. reflexivity.
Qed.

(** X12.  The log size loop measures every existing log file once, in
    order, adds one warning for each file of 500 MB or more and none for
    the others, and counts no failure. *)
Theorem log_size_loop_counts :
  forall ts files w,
    0 <= WARNINGS w ->
    WARNINGS w + Z.of_nat (List.length files) < 2 ^ 63 ->
    exists w' (evs : list event),
      ToolkitHealth.log_size_loop ts files w = (Done tt, w')
      /\ trace w' = (trace w ++ evs)%list
      /\ List.filter is_du evs = List.map (fun f => Du (fst f)) files
      /\ WARNINGS w' = WARNINGS w + Z.of_nat (List.length (List.filter big files))
      /\ FAILURES w' = FAILURES w
      /\ state_file w' = state_file w.
Proof.
  intros ts files. induction files as [|[logfile size] rest IH]; intros w H0 Hn.
  - exists w, []. cbn. rewrite app_nil_r, Z.add_0_r. repeat split.
  - cbn [List.length] in Hn.
    cbn [ToolkitHealth.log_size_loop List.filter List.map fst].
    change (big (logfile, size)) with (size >=? 500).
    unfold bind at 1 2. unfold emit at 1. cbv beta iota.
    destruct (size >=? 500).
    + unfold ToolkitHealth.warn, bind, echo, emit, with_trace;
        cbn [trace state_file probes FAILURES WARNINGS].
      match goal with
      | |- context [ToolkitHealth.log_size_loop ts rest ?w2] =>
          destruct (IH w2) as (w' & evs & R & T & D & W & F & S);
          cbn [trace state_file probes FAILURES WARNINGS] in *
      end.
      * rewrite wrap64_exact; lia.
      * rewrite wrap64_exact; lia.
      * rewrite R. eexists w', (Du logfile :: Stdout _ :: evs).
        rewrite T, W, F, S, wrap64_exact by lia.
        cbn [List.filter is_du List.length]. rewrite D, <- !app_assoc.
        repeat split. lia.
    + unfold ret, with_trace;
        cbn [trace state_file probes FAILURES WARNINGS].
      match goal with
      | |- context [ToolkitHealth.log_size_loop ts rest ?w2] =>
          destruct (IH w2) as (w' & evs & R & T & D & W & F & S);
          cbn [trace state_file probes FAILURES WARNINGS] in *
      end.
      * lia.
      * lia.
      * rewrite R. exists w', (Du logfile :: evs).
        rewrite T, W, F, S.
        cbn [List.filter is_du]. rewrite D, <- !app_assoc.
        repeat split.
Qed.

Lemma no_big_files files :
  Forall (fun f : string * Z => snd f < 500) files ->
  List.filter big files = [].
Proof.
  induction 1 as [|[l s] rest Hs _ IH]; cbn [List.filter]; auto.
  change (big (l, s)) with (s >=? 500). cbn [snd] in Hs.
  destruct (Z.geb_spec s 500); [lia | exact IH].
Qed.

(** X16.  When every check passes (unit active, RPC linked, WhatsApp
    linked, running and connected, no heartbeat disabled, disk and memory
    below 90%, Camofox answering, no log file of 500 MB or more) the run
    restarts nothing, mails nothing, counts no failure and no warning, and
    logs "Health check PASSED - all systems healthy". *)
Theorem all_checks_pass :
  forall env ts inp file,
    gateway_up (ToolkitHealth.is_active_1 inp) = true ->
    rpc_up (ToolkitHealth.health_output inp) = true ->
    whatsapp_up (ToolkitHealth.wa_output inp) = true ->
    heartbeat_disabled (ToolkitHealth.status_output inp) = false ->
    ToolkitHealth.disk_pct inp < 90 ->
    ToolkitHealth.mem_pct inp < 90 ->
    camofox_up (ToolkitHealth.camofox_health inp) = true ->
    Forall (fun f => snd f < 500) (ToolkitHealth.log_files inp) ->
    let r := run (ToolkitHealth.main env ts inp) (boot file) in
    FAILURES (snd r) = 0
    /\ WARNINGS (snd r) = 0
    /\ logged ("[" ++ ts ++ "] " ++ "Health check PASSED - all systems healthy")
              (trace (snd r))
    /\ count is_service_restart (trace (snd r)) = 0%nat
    /\ count is_gateway_restart (trace (snd r)) = 0%nat
    /\ count is_email (trace (snd r)) = 0%nat.
Proof.
  intros env ts inp file Hgw Hrpc Hwa Hhb Hdisk Hmem Hcam Hlogs r; subst r.
  destruct (toolkit_run env ts inp file)
    as (w & evs & R & T & M & C & U & G & F & W & S).
  apply no_big_files in Hlogs.
  assert (Hd : (ToolkitHealth.disk_pct inp >=? 90) = false)
    by (destruct (Z.geb_spec (ToolkitHealth.disk_pct inp) 90); [lia | auto]).
  assert (Hm : (ToolkitHealth.mem_pct inp >=? 90) = false)
    by (destruct (Z.geb_spec (ToolkitHealth.mem_pct inp) 90); [lia | auto]).
  revert M U G F W. unfold toolkit_effect; cbv zeta.
  cbn [mails unit_restarts gateway_restarts fails warns].
  rewrite Hgw, Hrpc, Hwa, Hhb, Hd, Hm, Hcam, Hlogs.
  cbn [negb andb bit List.length Nat.add bump Nat.iter nat_rect].
  intros M U G F W.
  rewrite R; cbn [snd]. rewrite T, !count_app, M, U, G, F, W.
  repeat split; auto.
  unfold logged. apply in_or_app. right. left. reflexivity.
Qed.

Lemma failed_is_active_restarts_unit_witness :
  rc (ToolkitHealth.is_active_1 all_down) <> 0
  /\ count is_service_restart
       (trace (snd (run (ToolkitHealth.main no_twilio stamp all_down)
                        (boot None)))) = 1%nat.
Proof.
  assert (N : rc (ToolkitHealth.is_active_1 all_down) <> 0)
    by (vm_compute; discriminate).
  split; [exact N |].
  exact (proj1
    (failed_is_active_restarts_unit no_twilio stamp all_down None N)).
Defined.

Lemma log_size_loop_counts_witness :
  0 <= WARNINGS (boot None)
  /\ WARNINGS (boot None) + Z.of_nat (List.length sample_logs) < 2 ^ 63
  /\ exists w' (evs : list event),
       ToolkitHealth.log_size_loop stamp sample_logs (boot None)
       = (Done tt, w')
       /\ trace w' = (trace (boot None) ++ evs)%list
       /\ List.filter is_du evs
          = List.map (fun f => Du (fst f)) sample_logs
       /\ WARNINGS w'
          = WARNINGS (boot None)
            + Z.of_nat (List.length (List.filter big sample_logs))
       /\ FAILURES w' = FAILURES (boot None)
       /\ state_file w' = state_file (boot None).
Proof.
  assert (H0 : 0 <= WARNINGS (boot None)) by (cbn; lia).
  assert (Hn : WARNINGS (boot None) + Z.of_nat (List.length sample_logs)
               < 2 ^ 63) by (cbn; lia).
  split; [exact H0 | split; [exact Hn |]].
  exact (log_size_loop_counts stamp sample_logs (boot None) H0 Hn).
Defined.

Lemma toolkit_summary_counts_witness :
  Z.of_nat (List.length (ToolkitHealth.log_files all_down)) < 2 ^ 62
  /\ FAILURES (snd (run (ToolkitHealth.main no_twilio stamp all_down)
                        (boot None))) = 6.
Proof.
  assert (H : Z.of_nat (List.length (ToolkitHealth.log_files all_down))
              < 2 ^ 62) by (cbn; lia).
  split; [exact H |].
  exact (proj1 (proj2
    (toolkit_summary_counts no_twilio stamp all_down None H))).
Defined.

Lemma all_checks_pass_witness :
  gateway_up (ToolkitHealth.is_active_1 all_up) = true
  /\ Forall (fun f : string * Z => snd f < 500) (ToolkitHealth.log_files all_up)
  /\ WARNINGS (snd (run (ToolkitHealth.main no_twilio stamp all_up)
                        (boot None))) = 0.
Proof.
  assert (H1 : gateway_up (ToolkitHealth.is_active_1 all_up) = true)
    by reflexivity.
  assert (H8 : Forall (fun f : string * Z => snd f < 500)
                 (ToolkitHealth.log_files all_up))
    by (repeat apply Forall_cons; try apply Forall_nil; cbn; lia).
  split; [exact H1 | split; [exact H8 |]].
  refine (proj1 (proj2
    (all_checks_pass no_twilio stamp all_up None H1 _ _ _ _ _ _ H8)));
    first [reflexivity | cbn; lia].
Defined.

(** ** run-scheduler.sh *)

(** X17.  As long as New York is 6 or 7 hours behind Israel, the "After
    6pm NY time" test never decides: the processor is run exactly when it
    is not Saturday in Israel, not Friday from 18:00 on, and 9:00 or later
    there, so never in the hour after midnight that 6pm New York would
    still allow; every other run stops at the time check with status 0. *)
Theorem scheduler_window :
  forall now il_time il_hour day ny_time offset w,
    0 <= il_hour < 24 ->
    offset = 6 \/ offset = 7 ->
    let ny_hour := (il_hour - offset) mod 24 in
    let r := Scheduler.time_check now il_time il_hour day ny_time ny_hour w in
    (fst r = Done tt
     <-> day <> 6 /\ ~ (day = 5 /\ 18 <= il_hour) /\ 9 <= il_hour)
    /\ (fst r <> Done tt -> fst r = Exit 0).
Proof.
  intros now il_time il_hour day ny_time offset w Hil Hoff ny_hour r.
  subst r.
  assert (Hny : 9 <= il_hour -> (ny_hour >=? 18) = false).
  { intros H9. subst ny_hour.
    destruct (Z.geb_spec ((il_hour - offset) mod 24) 18) as [Hge|]; auto.
    exfalso. rewrite Z.mod_small in Hge by lia. lia. }
  unfold Scheduler.time_check, bind, echo, emit, exit, ret; cbn [fst].
  destruct (Z.eqb_spec day 6) as [E6|N6]; cbn [fst].
  { split; [split; [discriminate | tauto] | reflexivity]. }
  destruct (Z.eqb_spec day 5) as [E5|N5];
    destruct (Z.geb_spec il_hour 18) as [G18|L18];
    destruct (Z.ltb_spec il_hour 9) as [L9|G9]; cbn [fst];
    try rewrite (Hny G9); cbn [fst];
    (split; [split; [first [discriminate | intros _; repeat split; lia]
                    | try reflexivity; intros (? & ? & ?); exfalso; first [lia | tauto]]
            | first [reflexivity | intros H; exfalso; apply H; reflexivity]]).
Qed.

Lemma scheduler_window_witness :
  0 <= 10 < 24
  /\ fst (Scheduler.time_check stamp "10:30" 10 2 "03:30" ((10 - 7) mod 24)
            (boot None)) = Done tt.
Proof.
  assert (H : 0 <= 10 < 24) by lia.
  split; [exact H |].
  apply (proj1 (scheduler_window stamp "10:30" 10 2 "03:30" 7 (boot None)
                  H (or_intror eq_refl))).
  repeat split; lia.
Defined.

(** ** load-env.sh *)

Lemma strip_last_none c s : ends_with c s = false -> LoadEnv.strip_last c s = s.
Proof.
  induction s as [|a s IH]; auto.
  destruct s as [|b s].
  - cbn. intros ->. reflexivity.
  - intros H.
    change (LoadEnv.strip_last c (String a (String b s)))
      with (String a (LoadEnv.strip_last c (String b s))).
    change (ends_with c (String a (String b s)))
      with (ends_with c (String b s)) in H.
    rewrite IH by exact H. reflexivity.
Qed.

Lemma strip_first_none c s : starts_with c s = false -> LoadEnv.strip_first c s = s.
Proof. destruct s as [|a s]; cbn; auto. intros ->. reflexivity. Qed.

Lemma strip_quotes_bare v : bare v -> LoadEnv.strip_quotes v = v.
Proof.
  intros (H1 & H2 & H3 & H4). unfold LoadEnv.strip_quotes.
  rewrite (strip_last_none _ _ H3), (strip_first_none _ _ H1),
    (strip_last_none _ _ H4), (strip_first_none _ _ H2).
  reflexivity.
Qed.

Lemma strip_last_append c s : LoadEnv.strip_last c (s ++ String c EmptyString) = s.
Proof.
  induction s as [|a s IH].
  - cbn. rewrite Ascii.eqb_refl. reflexivity.
  - cbn [String.append].
    destruct (s ++ String c "") as [|b t] eqn:E.
    + destruct s; discriminate E.
    + change (LoadEnv.strip_last c (String a (String b t)))
        with (String a (LoadEnv.strip_last c (String b t))).
      rewrite IH. reflexivity.
Qed.

Lemma key_of_append key rest :
  has_char "=" key = false -> LoadEnv.key_of (key ++ String "=" rest) = key.
Proof.
  induction key as [|a key IH]; cbn.
  - reflexivity.
  - intros H. apply orb_false_elim in H as [Ha Hk].
    rewrite Ha, IH by exact Hk. reflexivity.
Qed.

Lemma after_first_eq_append key rest :
  has_char "=" key = false ->
  LoadEnv.after_first_eq (key ++ String "=" rest) = Some rest.
Proof.
  induction key as [|a key IH]; cbn.
  - reflexivity.
  - intros H. apply orb_false_elim in H as [Ha Hk].
    rewrite Ha. apply IH, Hk.
Qed.

Lemma key_of_no_eq line : has_char "=" line = false -> LoadEnv.key_of line = line.
Proof.
  induction line as [|a line IH]; cbn; auto.
  intros H. apply orb_false_elim in H as [Ha Hk].
  rewrite Ha, IH by exact Hk. reflexivity.
Qed.

Lemma after_first_eq_no_eq line :
  has_char "=" line = false -> LoadEnv.after_first_eq line = None.
Proof.
  induction line as [|a line IH]; cbn; auto.
  intros H. apply orb_false_elim in H as [Ha Hk].
  rewrite Ha. apply IH, Hk.
Qed.

Lemma plain_key_line key rest :
  plain_key key ->
  let line := key ++ String "=" rest in
  LoadEnv.trim_leading line = line
  /\ is_empty line = false
  /\ String.prefix "#" line = false.
Proof.
  intros (He & Ht & Hh & Hx & Hq) line; subst line.
  destruct key as [|a key]; [discriminate He|].
  cbn [String.append LoadEnv.trim_leading is_empty String.prefix].
  cbn [LoadEnv.trim_leading] in Ht. cbn [starts_with] in Hh.
  destruct (LoadEnv.is_space a).
  - exfalso.
    assert (L : (String.length (LoadEnv.trim_leading key) <= String.length key)%nat).
    { clear. induction key as [|b k IH]; cbn; auto.
      destruct (LoadEnv.is_space b); cbn; lia. }
    rewrite Ht in L. cbn in L. lia.
  - repeat split.
    destruct (ascii_dec "#" a) as [<-|N]; [discriminate Hh|reflexivity].
Qed.

Lemma prefix_stops_at_eq p key rest :
  has_char "=" p = false ->
  String.prefix p key = false ->
  String.prefix p (key ++ String "=" rest) = false.
Proof.
  revert p. induction key as [|b key IH]; intros [|a p] Hp Hk; cbn in *;
    try discriminate.
  - apply orb_false_elim in Hp as [Ha _].
    destruct (ascii_dec a "=") as [->|]; [discriminate Ha | reflexivity].
  - apply orb_false_elim in Hp as [_ Hp].
    destruct (ascii_dec a b); auto.
Qed.

Lemma parse_plain key rest :
  plain_key key ->
  LoadEnv.parse_line (key ++ String "=" rest) = Some (key, LoadEnv.strip_quotes rest).
Proof.
  intros Hk. destruct (plain_key_line key rest Hk) as (Ht & He & Hh).
  destruct Hk as (_ & _ & _ & Hx & Hq).
  unfold LoadEnv.parse_line; cbv zeta. rewrite Ht, He, Hh. cbn [orb].
  unfold LoadEnv.strip_prefix.
  rewrite (prefix_stops_at_eq "export " key rest eq_refl Hx).
  unfold LoadEnv.val_of. rewrite key_of_append, after_first_eq_append by exact Hq.
  reflexivity.
Qed.

Lemma ends_with_append c d s :
  ends_with c (s ++ String d EmptyString) = Ascii.eqb d c.
Proof.
  induction s as [|a s IH]; auto.
  cbn [String.append]. destruct (s ++ String d EmptyString) as [|b t] eqn:E.
  - destruct s; discriminate E.
  - change (ends_with c (String a (String b t)))
      with (ends_with c (String b t)). exact IH.
Qed.

Lemma strip_quotes_double v :
  bare v ->
  LoadEnv.strip_quotes (String LoadEnv.double_quote (v ++ String LoadEnv.double_quote EmptyString)) = v.
Proof.
  intros (H1 & H2 & H3 & H4). unfold LoadEnv.strip_quotes.
  change (String LoadEnv.double_quote (v ++ String LoadEnv.double_quote EmptyString))
    with (String LoadEnv.double_quote v ++ String LoadEnv.double_quote EmptyString).
  rewrite strip_last_append. cbn [LoadEnv.strip_first]. rewrite Ascii.eqb_refl.
  rewrite (strip_last_none _ _ H4), (strip_first_none _ _ H2). reflexivity.
Qed.

Lemma strip_quotes_single v :
  bare v ->
  LoadEnv.strip_quotes (String LoadEnv.single_quote (v ++ String LoadEnv.single_quote EmptyString)) = v.
Proof.
  intros (H1 & H2 & H3 & H4). unfold LoadEnv.strip_quotes.
  change (String LoadEnv.single_quote (v ++ String LoadEnv.single_quote EmptyString))
    with (String LoadEnv.single_quote v ++ String LoadEnv.single_quote EmptyString).
  rewrite (strip_last_none LoadEnv.double_quote)
    by (rewrite ends_with_append; reflexivity).
  rewrite (strip_first_none LoadEnv.double_quote) by reflexivity.
  rewrite strip_last_append. cbn [LoadEnv.strip_first]. rewrite Ascii.eqb_refl.
  reflexivity.
Qed.

Lemma prefix_of_append p s : String.prefix p (p ++ s) = true.
Proof.
  induction p as [|a p IH]; cbn.
  - destruct s; reflexivity.
  - destruct (ascii_dec a a) as [_|N]; [exact IH | now destruct N].
Qed.

(** X18.  A line [KEY=value] of .env is read back as the pair (KEY, value),
    and so are [export KEY=value] and the value written between double or
    single quotes, for a name without "=" that starts with neither white
    space nor "#" nor "export " and a value that neither starts nor ends
    with a quote character. *)
Theorem parse_line_assignment :
  forall key val,
    plain_key key -> bare val ->
    LoadEnv.parse_line (key ++ "=" ++ val) = Some (key, val)
    /\ LoadEnv.parse_line ("export " ++ key ++ "=" ++ val) = Some (key, val)
    /\ LoadEnv.parse_line (key ++ "=" ++ String LoadEnv.double_quote val
                   ++ String LoadEnv.double_quote EmptyString) = Some (key, val)
    /\ LoadEnv.parse_line (key ++ "=" ++ String LoadEnv.single_quote val
                   ++ String LoadEnv.single_quote EmptyString) = Some (key, val).
Proof.
  intros key val Hk Hv.
  assert (P : forall rest, LoadEnv.parse_line (key ++ String "=" rest)
                           = Some (key, LoadEnv.strip_quotes rest))
    by (intros; apply parse_plain; exact Hk).
  change (key ++ "=" ++ val) with (key ++ String "=" val).
  repeat split.
  - rewrite P, strip_quotes_bare by exact Hv. reflexivity.
  - destruct (plain_key_line key val Hk) as (Ht & He & Hh).
    destruct Hk as (_ & _ & _ & Hx & Hq).
    unfold LoadEnv.parse_line; cbv zeta.
    change (LoadEnv.trim_leading ("export " ++ key ++ String "=" val))
      with ("export " ++ key ++ String "=" val).
    change (is_empty ("export " ++ key ++ String "=" val)) with false.
    change (String.prefix "#" ("export " ++ key ++ String "=" val)) with false.
    cbn [orb].
    unfold LoadEnv.strip_prefix. rewrite prefix_of_append.
    change (skip (String.length "export ")
              ("export " ++ key ++ String "=" val))
      with (key ++ String "=" val).
    unfold LoadEnv.val_of. rewrite key_of_append, after_first_eq_append by exact Hq.
    rewrite strip_quotes_bare by exact Hv. reflexivity.
  - change (key ++ "=" ++ String LoadEnv.double_quote val ++ String LoadEnv.double_quote EmptyString)
      with (key ++ String "=" (String LoadEnv.double_quote (val ++ String LoadEnv.double_quote EmptyString))).
    rewrite P, strip_quotes_double by exact Hv. reflexivity.
  - change (key ++ "=" ++ String LoadEnv.single_quote val ++ String LoadEnv.single_quote EmptyString)
      with (key ++ String "=" (String LoadEnv.single_quote (val ++ String LoadEnv.single_quote EmptyString))).
    rewrite P, strip_quotes_single by exact Hv. reflexivity.
Qed.

(** X19.  A line without "=" is not skipped: both the name and the value
    read from it are the whole line (less its outer quotes for the
    value). *)
Theorem parse_line_without_equals :
  forall line,
    is_empty line = false ->
    LoadEnv.trim_leading line = line ->
    starts_with "#" line = false ->
    String.prefix "export " line = false ->
    has_char "=" line = false ->
    LoadEnv.parse_line line = Some (line, LoadEnv.strip_quotes line).
Proof.
  intros line He Ht Hh Hx Hq.
  unfold LoadEnv.parse_line; cbv zeta. rewrite Ht, He.
  assert (Hp : String.prefix "#" line = false).
  { destruct line as [|a l]; [discriminate He|].
    cbn [starts_with] in Hh. cbn [String.prefix].
    destruct (ascii_dec "#" a) as [<-|]; [discriminate Hh | reflexivity]. }
  rewrite Hp. cbn [orb]. unfold LoadEnv.strip_prefix. rewrite Hx.
  unfold LoadEnv.val_of. rewrite key_of_no_eq, after_first_eq_no_eq by exact Hq.
  reflexivity.
Qed.

Lemma trim_leading_spaces ws s :
  all_space ws = true -> LoadEnv.trim_leading (ws ++ s) = LoadEnv.trim_leading s.
Proof.
  induction ws as [|a ws IH]; cbn; auto.
  intros H. apply andb_prop in H as [Ha Hw]. rewrite Ha. auto.
Qed.

Lemma append_empty_r (s : string) : s ++ EmptyString = s.
Proof. induction s as [|a s IH]; cbn; [|rewrite IH]; reflexivity. Qed.

(** X20.  Blank lines and comment lines are skipped, also when white
    space precedes the "#". *)
Theorem parse_line_skips :
  forall ws rest,
    all_space ws = true ->
    LoadEnv.parse_line ws = None
    /\ LoadEnv.parse_line (ws ++ String "#" rest) = None.
Proof.
  intros ws rest H. unfold LoadEnv.parse_line; cbv zeta.
  rewrite <- (append_empty_r ws) at 1.
  rewrite !trim_leading_spaces by exact H.
  split; [reflexivity|].
  change (LoadEnv.trim_leading (String "#" rest)) with (String "#" rest).
  cbn [is_empty orb String.prefix].
  destruct (ascii_dec "#" "#") as [_|N]; [|now destruct N].
  destruct rest; reflexivity.
Qed.

Lemma parse_line_assignment_witness :
  plain_key "ALERT_EMAIL" /\ bare "ops@example.com"
  /\ LoadEnv.parse_line
       ("ALERT_EMAIL" ++ "=" ++ String LoadEnv.double_quote "ops@example.com"
        ++ String LoadEnv.double_quote EmptyString)
     = Some ("ALERT_EMAIL", "ops@example.com").
Proof.
  assert (K : plain_key "ALERT_EMAIL") by (repeat split).
  assert (V : bare "ops@example.com") by (repeat split).
  split; [exact K | split; [exact V |]].
  exact (proj1 (proj2 (proj2
    (parse_line_assignment "ALERT_EMAIL" "ops@example.com" K V)))).
Defined.

Lemma parse_line_without_equals_witness :
  has_char "=" "DEBUG" = false
  /\ LoadEnv.parse_line "DEBUG" = Some ("DEBUG", LoadEnv.strip_quotes "DEBUG").
Proof.
  assert (H : has_char "=" "DEBUG" = false) by reflexivity.
  split; [exact H |].
  exact (parse_line_without_equals "DEBUG" eq_refl eq_refl eq_refl eq_refl H).
Defined.

Lemma parse_line_skips_witness :
  all_space "   " = true
  /\ LoadEnv.parse_line ("   " ++ String "#" " Twilio credentials") = None.
Proof.
  assert (H : all_space "   " = true) by reflexivity.
  split; [exact H |].
  exact (proj2 (parse_line_skips "   " " Twilio credentials" H)).
Defined.

Lemma listed_In key keys : listed key keys = true <-> In key keys.
Proof.
  unfold listed. rewrite existsb_exists. split.
  - intros (x & Hx & E). apply String.eqb_eq in E. now subst.
  - intros H. exists key. split; [exact H | apply String.eqb_refl].
Qed.

Lemma export_fold_lookup ALL_VARS keys :
  forall exported key,
    LoadEnv.lookup key
      (fold_left (fun e k => LoadEnv.export_var ALL_VARS k e) keys exported)
    = if listed key keys
      then match LoadEnv.lookup key ALL_VARS with
           | Some v => Some v
           | None => LoadEnv.lookup key exported
           end
      else LoadEnv.lookup key exported.
Proof.
  induction keys as [|x keys IH]; intros exported key.
  - reflexivity.
  - cbn [fold_left]. rewrite IH. unfold listed; cbn [existsb].
    fold (listed key keys).
    unfold LoadEnv.export_var.
    destruct (String.eqb_spec key x) as [->|N].
    + cbn [orb]. destruct (LoadEnv.lookup x ALL_VARS) as [v|] eqn:E.
      * cbn [LoadEnv.lookup]. rewrite String.eqb_refl.
        destruct (listed x keys); reflexivity.
      * destruct (listed x keys); reflexivity.
    + cbn [orb]. destruct (LoadEnv.lookup x ALL_VARS) as [v|] eqn:E.
      * cbn [LoadEnv.lookup].
        destruct (String.eqb_spec x key) as [->|_]; [now destruct N|].
        reflexivity.
      * reflexivity.
Qed.

(** X21.  For a known job the command gets, of the variables of .env,
    exactly those on the job's list: a listed variable is exported with
    its .env value when .env sets it, and nothing else is exported. *)
Theorem exports_only_listed :
  forall ALL_VARS JOB keys,
    LoadEnv.job_keys JOB = Some keys ->
    let exported := LoadEnv.export_vars ALL_VARS keys in
    (forall key, In key keys -> LoadEnv.lookup key exported = LoadEnv.lookup key ALL_VARS)
    /\ (forall key, ~ In key keys -> LoadEnv.lookup key exported = None).
Proof.
  intros ALL_VARS JOB keys _ exported; subst exported. unfold LoadEnv.export_vars.
  split; intros key H; rewrite export_fold_lookup.
  - apply listed_In in H. rewrite H. destruct (LoadEnv.lookup key ALL_VARS); reflexivity.
  - destruct (listed key keys) eqn:E; [|reflexivity].
    apply listed_In in E. now destruct H.
Qed.

Lemma exports_only_listed_witness :
  (exists keys, LoadEnv.job_keys "watchdog" = Some keys
     /\ LoadEnv.lookup "ALERT_EMAIL" (LoadEnv.export_vars sample_vars keys)
        = Some "ops@example.com"
     /\ LoadEnv.lookup "ANTHROPIC_API_KEY"
          (LoadEnv.export_vars sample_vars keys) = None).
Proof.
  eexists. split; [reflexivity |].
  split.
  - apply (proj1 (exports_only_listed sample_vars "watchdog" _ eq_refl)).
    cbv [In]. auto 20.
  - apply (proj2 (exports_only_listed sample_vars "watchdog" _ eq_refl)).
    cbv [In]. intros H.
    repeat (destruct H as [H | H]; [discriminate H |]). exact H.
Defined.
